(** * standard-drinker: the BAC simulation of [DrinkGraph] and the drink store

    A shallow embedding of
    - [components/DrinkGraph.tsx]: the [points] simulation (absorption and
      two-phase elimination in 10-minute steps) and [soberTimeInfo];
    - [context/DrinksContext.tsx]: [addDrink], [removeDrink], [updateDrinkTime].

    Number model.  JavaScript numbers are IEEE doubles.  Timestamps are epoch
    milliseconds and are modelled as integers ([Z]); quantities of alcohol,
    weights, rates and BAC values are modelled as exact rationals ([Q]),
    compared with [Qle_bool].  Rounding, NaN and infinities are outside the
    model. *)

From Stdlib Require Import String ZArith QArith Qminmax Lqa Lia Bool List.
From Stdlib Require Import Sorting.Permutation Sorting.Sorted.
Import ListNotations.

Local Open Scope Z_scope.

(** ** Data model

    The declarations of [Drink] and [Gender] ([types.ts]) are not among the
    sources.  The fields of [Drink] are those of the object literal that
    [addDrink] builds. *)

Record Drink : Type := mkDrink
  { id : string;
    name : string;
    volumeMl : Q;
    abv : Q;
    standardDrinks : Q;
    timestamp : Z }.

(** Modelled from the spec: the declaration of [Gender], which the spec has
    two-valued (male-typical, female-typical); the settings screen sets
    exactly ['male'] and ['female']. *)
Inductive Gender : Type := male | female.

Definition Gender_eqb (a b : Gender) : bool :=
  match a, b with
  | male, male | female, female => true
  | _, _ => false
  end.

(** An element of [dataPoints]: [{ time, bac, label }]. *)
Record DataPoint : Type := mkPoint
  { time : Z;
    bac : Q;
    label : string }.

(** Strict comparison of rationals, [a < b]. *)
Definition Qlt_bool (a b : Q) : bool := negb (Qle_bool b a).

(** ** [[...drinks].sort((a, b) => a.timestamp - b.timestamp)]

    [Array.prototype.sort] is a stable sort and the comparator orders by
    timestamp: the result is the stable arrangement of the events by
    ascending timestamp, computed here by insertion from the right. *)

Fixpoint insertDrink (d : Drink) (l : list Drink) : list Drink :=
  match l with
  | [] => [d]
  | x :: xs =>
      if timestamp d <=? timestamp x then d :: l else x :: insertDrink d xs
  end.

Definition sortDrinks (drinks : list Drink) : list Drink :=
  fold_right insertDrink [] drinks.

(** ** The simulation ([points] in DrinkGraph.tsx) *)

(** The mutable locals of the simulation: [currentNetSD], [currentTime],
    [timeSinceStart], [steps] and the array [dataPoints]. *)
Record SimState : Type := mkState
  { currentNetSD : Q;
    currentTime : Z;
    timeSinceStart : Z;
    steps : Z;
    dataPoints : list DataPoint }.

Definition stepsInMinutes : Z := 10.
Definition stepMs : Z := stepsInMinutes * 60 * 1000.
Definition maxSteps : Z := (24 * 60) / 5.

(** [forEach(d => currentNetSD += d.standardDrinks)] and the [for .. of] loop
    doing the same. *)
Definition absorb (net : Q) (ds : list Drink) : Q :=
  fold_left (fun acc d => (acc + standardDrinks d)%Q) ds net.

(** [sortedDrinks.filter(d => Math.abs(d.timestamp - startTime) < 1000)] *)
Definition initialDrinks (sortedDrinks : list Drink) (startTime : Z) : list Drink :=
  filter (fun d => Z.abs (timestamp d - startTime) <? 1000) sortedDrinks.

(** [sortedDrinks.filter(d => d.timestamp > currentTime && d.timestamp <= nextTime)] *)
Definition drinksInInterval (sortedDrinks : list Drink) (currentTime nextTime : Z)
  : list Drink :=
  filter (fun d => (currentTime <? timestamp d) && (timestamp d <=? nextTime))
         sortedDrinks.

Section Simulation.

(** [new Date(t).toLocaleTimeString([], { hour: '2-digit', minute: '2-digit' })]:
    the platform's formatter, which depends on locale and time zone. *)
Variable toLocaleTimeString : Z -> string.

(** The props of the component. *)
Variable firstHourBurn : Q.
Variable subsequentHourBurn : Q.
Variable weight : Q.
Variable gender : Gender.

(** Widmark factor: [gender === 'male' ? 0.68 : 0.55]. *)
Definition r : Q := if Gender_eqb gender male then 0.68%Q else 0.55%Q.

(** [const w = weight > 0 ? weight : 1] *)
Definition effectiveWeight : Q := if Qlt_bool 0 weight then weight else 1%Q.

(** [toBAC (netSD) = netSD / (w * r)] *)
Definition toBAC (netSD : Q) : Q := (netSD / (effectiveWeight * r))%Q.

Definition stepBurnFirstHour : Q :=
  ((firstHourBurn / 60) * inject_Z stepsInMinutes)%Q.
Definition stepBurnSubsequent : Q :=
  ((subsequentHourBurn / 60) * inject_Z stepsInMinutes)%Q.

Section Loop.

Variable sortedDrinks : list Drink.
Variable lastDrinkTime : Z.

(** One execution of the body of [while (steps < maxSteps)].  The result
    is the state after the body, whether the body left through [break],
    and the batch [drinksInInterval] whose standard drinks the body added
    to [currentNetSD]. *)
Definition loopBody (st : SimState) : SimState * bool * list Drink :=
  let nextTime := currentTime st + stepMs in
  let batch := drinksInInterval sortedDrinks (currentTime st) nextTime in
  let net1 := absorb (currentNetSD st) batch in
  let burnAmount :=
    if timeSinceStart st <? 60 * 60 * 1000
    then stepBurnFirstHour else stepBurnSubsequent in
  let net2 :=
    if Qlt_bool 0 net1
    then (let n := (net1 - burnAmount)%Q in
          if Qlt_bool n 0 then 0%Q else n)
    else net1 in
  let currentBAC := toBAC net2 in
  let pts :=
    dataPoints st ++ [mkPoint nextTime currentBAC (toLocaleTimeString nextTime)] in
  if (lastDrinkTime <? currentTime st) && Qle_bool currentBAC 0.001%Q
  then (mkState net2 (currentTime st) (timeSinceStart st) (steps st) pts,
        true, batch)
  else (mkState net2 nextTime (timeSinceStart st + stepMs) (steps st + 1) pts,
        false, batch).

(** The [while] loop.  [fuel] bounds the number of body executions the
    model may unfold; [None] means the fuel ran out before the loop
    ended.  The second component is the list of batches absorbed, one per
    executed body, in execution order. *)
Fixpoint whileLoop (fuel : nat) (st : SimState)
  : option (SimState * list (list Drink)) :=
  if steps st <? maxSteps then
    match fuel with
    | O => None
    | S fuel' =>
        match loopBody st with
        | (st', true, batch) => Some (st', [batch])
        | (st', false, batch) =>
            match whileLoop fuel' st' with
            | Some (st'', batches) => Some (st'', batch :: batches)
            | None => None
            end
        end
    end
  else Some (st, []).

End Loop.

(** The whole [useMemo] callback computing [points], with the absorbed
    batches: first [initialDrinks], then one batch per executed step. *)
Definition simulate (fuel : nat) (drinks : list Drink)
  : option (list DataPoint * list (list Drink)) :=
  match drinks with
  | [] => Some ([], [])
  | _ :: _ =>
      let sortedDrinks := sortDrinks drinks in
      match sortedDrinks with
      | [] => None (* not reached: the sort keeps every event *)
      | first :: _ =>
          let startTime := timestamp first in
          let initial := initialDrinks sortedDrinks startTime in
          let net0 := absorb 0%Q initial in
          let pts0 :=
            [mkPoint startTime (toBAC net0) (toLocaleTimeString startTime)] in
          let lastDrinkTime := timestamp (last sortedDrinks first) in
          match whileLoop sortedDrinks lastDrinkTime fuel
                  (mkState net0 startTime 0 0 pts0) with
          | Some (st, batches) => Some (dataPoints st, initial :: batches)
          | None => None
          end
      end
  end.

End Simulation.

(** [points] alone, as the component uses it. *)
Definition points (toLocaleTimeString : Z -> string)
    (firstHourBurn subsequentHourBurn weight : Q) (gender : Gender)
    (fuel : nat) (drinks : list Drink) : option (list DataPoint) :=
  option_map fst
    (simulate toLocaleTimeString firstHourBurn subsequentHourBurn weight gender
       fuel drinks).

(** ** [soberTimeInfo] *)

Module SoberInfo.

Inductive Status : Type := under | over.

(** The object literal returned by [soberTimeInfo]; a key that the literal
    does not set is [None]. *)
Record t : Type := mk
  { status : Status;
    peak : Q;
    time : option Z;
    label : option string;
    projected : option bool }.

(** Truthiness of the [projected] key. *)
Definition isProjected (i : t) : bool :=
  match projected i with
  | Some b => b
  | None => false
  end.

End SoberInfo.

(** [points[i].bac]; every index the scans use is within the array. *)
Definition bacAt (pts : list DataPoint) (i : nat) : Q :=
  match nth_error pts i with
  | Some p => bac p
  | None => 0%Q
  end.

(** [for (let i = 1; i < points.length; i++)
       if (points[i].bac > points[peakIndex].bac) peakIndex = i;] *)
Definition peakIndexOf (pts : list DataPoint) : nat :=
  fold_left
    (fun peakIndex i =>
       if Qlt_bool (bacAt pts peakIndex) (bacAt pts i) then i else peakIndex)
    (seq 1 (length pts - 1)) 0%nat.

(** [for (let i = peakIndex; i < points.length; i++)
       if (points[i].bac <= 0.05) return ...points[i]...]: the first point at
    or after [peakIndex] at or below the limit. *)
Definition firstAtOrBelowLimit (pts : list DataPoint) (peakIndex : nat)
  : option DataPoint :=
  find (fun p => Qle_bool (bac p) 0.05%Q) (skipn peakIndex pts).

Definition soberTimeInfo (pts : list DataPoint) : option SoberInfo.t :=
  match pts with
  | [] => None
  | p0 :: _ =>
      let peakIndex := peakIndexOf pts in
      let peakBAC := bacAt pts peakIndex in
      if Qlt_bool peakBAC 0.05%Q
      then Some (SoberInfo.mk SoberInfo.under peakBAC None None None)
      else
        match firstAtOrBelowLimit pts peakIndex with
        | Some p =>
            Some (SoberInfo.mk SoberInfo.over peakBAC
                    (Some (time p)) (Some (label p)) None)
        | None =>
            let lastP := last pts p0 in
            Some (SoberInfo.mk SoberInfo.over peakBAC
                    (Some (time lastP)) (Some (label lastP)) (Some true))
        end
  end.

(** [if (points.length < 2) return null;]: the component shows the chart and
    the analytics only from two points on. *)
Definition rendersChart (pts : list DataPoint) : bool :=
  negb (length pts <? 2)%nat.

(** ** The drink store ([DrinksContext.tsx]) *)

(** [(volumeMl / 1000) * abv * 0.789] *)
Definition standardDrinksOf (volumeMl abv : Q) : Q :=
  ((volumeMl / 1000) * abv * 0.789)%Q.

(** [addDrink].  [newId] stands for
    [Date.now().toString() + Math.random().toString()] and [now] for
    [Date.now()]; [timestamp || Date.now()] takes the clock when the argument
    is absent or zero. *)
Definition addDrink (newId : string) (now : Z)
    (name : string) (volumeMl abv : Q) (timestamp : option Z)
    (prevDrinks : list Drink) : list Drink :=
  let std := standardDrinksOf volumeMl abv in
  let ts :=
    match timestamp with
    | Some t => if t =? 0 then now else t
    | None => now
    end in
  mkDrink newId name volumeMl abv std ts :: prevDrinks.

(** [prevDrinks.filter((d) => d.id !== id)] *)
Definition removeDrink (i : string) (prevDrinks : list Drink) : list Drink :=
  filter (fun d => negb (String.eqb (id d) i)) prevDrinks.

(** [{ ...d, timestamp: newTimestamp }] *)
Definition withTimestamp (d : Drink) (newTimestamp : Z) : Drink :=
  mkDrink (id d) (name d) (volumeMl d) (abv d) (standardDrinks d) newTimestamp.

(** [prevDrinks.map((d) => (d.id === id ? { ...d, timestamp: newTimestamp } : d))] *)
Definition updateDrinkTime (i : string) (newTimestamp : Z)
    (prevDrinks : list Drink) : list Drink :=
  map (fun d => if String.eqb (id d) i then withTimestamp d newTimestamp else d)
      prevDrinks.


(** ** The chart data ([DrinkGraph.tsx]) *)

(** [l.filter((_, i) => f(i))], the elements being numbered from [i]. *)
Fixpoint filterByIndex {A : Type} (f : nat -> bool) (i : nat) (l : list A)
  : list A :=
  match l with
  | [] => []
  | x :: xs =>
      if f i then x :: filterByIndex f (S i) xs else filterByIndex f (S i) xs
  end.

(** [points.length > 20 ? points.filter((_, i) => i % 5 === 0) : points] *)
Definition sampledPoints (pts : list DataPoint) : list DataPoint :=
  if (20 <? List.length pts)%nat
  then filterByIndex (fun i => (i mod 5 =? 0)%nat) 0 pts
  else pts.

(** [sampledPoints.map(p => Math.min(p.bac, 0.2))] *)
Definition chartValues (pts : list DataPoint) : list Q :=
  map (fun p => Qmin (bac p) 0.2%Q) (sampledPoints pts).

(** [Array(sampledPoints.length).fill(0.05)] *)
Definition referenceLine (pts : list DataPoint) : list Q :=
  repeat 0.05%Q (List.length (sampledPoints pts)).

(** ** The session header ([index.tsx]) *)

(** [drinks.reduce((sum, drink) => sum + drink.standardDrinks, 0)] *)
Definition totalStdDrinks (drinks : list Drink) : Q :=
  fold_left (fun sum drink => (sum + standardDrinks drink)%Q) drinks 0%Q.

Module SessionInfo.

(** [{ hours, mins, startTime }] *)
Record t : Type := mk
  { hours : Z;
    mins : Z;
    startTime : Z }.

End SessionInfo.

(** [sessionInfo]: the time elapsed since the oldest drink, in hours and
    minutes.  [Math.min(...drinks.map(d => d.timestamp))] is taken on a
    non-empty list; [validDiff] is a non-negative integer, on which
    [Math.floor(a / b)] and [a % b] are the quotient and the remainder. *)
Definition sessionInfo (currentTime : Z) (drinks : list Drink)
  : option SessionInfo.t :=
  match drinks with
  | [] => None
  | d :: ds =>
      let startTime := fold_left Z.min (map timestamp ds) (timestamp d) in
      let diffMs := currentTime - startTime in
      let validDiff := Z.max 0 diffMs in
      let hours := validDiff / (1000 * 60 * 60) in
      let mins := (validDiff mod (1000 * 60 * 60)) / (1000 * 60) in
      Some (SessionInfo.mk hours mins startTime)
  end.

(** ** The settings ([index.tsx]) *)

Module Settings.

(** The settings state of [App]: [firstHourBurn], [subsequentHourBurn],
    [weight] and [gender]. *)
Record t : Type := mk
  { firstHourBurn : Q;
    subsequentHourBurn : Q;
    weight : Q;
    gender : Gender }.

(** The [useState] defaults. *)
Definition initial : t := mk 2 1 80 male.

(** [parseFloat(text) || 0]: [None] is NaN. *)
Definition floatOrZero (parsed : option Q) : Q :=
  match parsed with
  | Some q => if Qeq_bool q 0 then 0%Q else q
  | None => 0%Q
  end.

(** [parseInt(text) || 0]: [None] is NaN. *)
Definition intOrZero (parsed : option Z) : Z :=
  match parsed with
  | Some n => if n =? 0 then 0 else n
  | None => 0
  end.

(** [setWeight(Math.max(1, num))] *)
Definition handleWeightChange (parsed : option Z) (s : t) : t :=
  let num := intOrZero parsed in
  mk (firstHourBurn s) (subsequentHourBurn s) (inject_Z (Z.max 1 num)) (gender s).

(** [setFirstHourBurn(Math.max(0, Math.min(4, num)))] *)
Definition handleFirstHourBurnChange (parsed : option Q) (s : t) : t :=
  let num := floatOrZero parsed in
  mk (Qmax 0 (Qmin 4 num)) (subsequentHourBurn s) (weight s) (gender s).

(** [setSubsequentHourBurn(Math.max(0, Math.min(3, num)))] *)
Definition handleSubsequentHourBurnChange (parsed : option Q) (s : t) : t :=
  let num := floatOrZero parsed in
  mk (firstHourBurn s) (Qmax 0 (Qmin 3 num)) (weight s) (gender s).

(** What the user can do to the settings: the four burn-rate buttons, the
    two gender buttons and the three text handlers. *)
Inductive Action : Type :=
| FirstHourMinus
| FirstHourPlus
| SubsequentMinus
| SubsequentPlus
| SetGender (g : Gender)
| WeightText (parsed : option Z)
| FirstHourText (parsed : option Q)
| SubsequentText (parsed : option Q).

Definition step (s : t) (a : Action) : t :=
  match a with
  | FirstHourMinus =>
      (* setFirstHourBurn(Math.max(0, firstHourBurn - 0.5)) *)
      mk (Qmax 0 (firstHourBurn s - 0.5)) (subsequentHourBurn s) (weight s) (gender s)
  | FirstHourPlus =>
      (* setFirstHourBurn(Math.min(4, firstHourBurn + 0.5)) *)
      mk (Qmin 4 (firstHourBurn s + 0.5)) (subsequentHourBurn s) (weight s) (gender s)
  | SubsequentMinus =>
      (* setSubsequentHourBurn(Math.max(0, subsequentHourBurn - 0.1)) *)
      mk (firstHourBurn s) (Qmax 0 (subsequentHourBurn s - 0.1)) (weight s) (gender s)
  | SubsequentPlus =>
      (* setSubsequentHourBurn(Math.min(3, subsequentHourBurn + 0.1)) *)
      mk (firstHourBurn s) (Qmin 3 (subsequentHourBurn s + 0.1)) (weight s) (gender s)
  | SetGender g => mk (firstHourBurn s) (subsequentHourBurn s) (weight s) g
  | WeightText parsed => handleWeightChange parsed s
  | FirstHourText parsed => handleFirstHourBurnChange parsed s
  | SubsequentText parsed => handleSubsequentHourBurnChange parsed s
  end.

(** The settings after a sequence of actions on the defaults. *)
Definition run (actions : list Action) : t := fold_left step actions initial.

End Settings.

(** ** The manual calculator ([ManualCalculator.tsx]) *)

Module ManualCalculator.

(** The inputs of the calculator: [volume] and [abv]. *)
Record t : Type := mk
  { volume : Q;
    abv : Q }.

(** Schooner, full strength. *)
Definition initial : t := mk 425 4.8.

(** The previewed [stdDrinks], which the effect keeps equal to
    [(volume / 1000) * abv * 0.789]. *)
Definition stdDrinks (s : t) : Q := ((volume s / 1000) * abv s * 0.789)%Q.

(** [handleVolumeChange]: [parsed] is [parseInt(text)] ([None] for NaN) and
    [textIsEmpty] is [text === '']. *)
Definition handleVolumeChange (parsed : option Z) (textIsEmpty : bool) (s : t)
  : t :=
  match parsed with
  | Some num => mk (inject_Z num) (abv s)
  | None => if textIsEmpty then mk 0 (abv s) else s
  end.

(** [handleAbvChange]: [parsed] is [parseFloat(text)]. *)
Definition handleAbvChange (parsed : option Q) (textIsEmpty : bool) (s : t)
  : t :=
  match parsed with
  | Some num => mk (volume s) num
  | None => if textIsEmpty then mk (volume s) 0 else s
  end.

(** [handleAdd]: [onAddDrink(generatedName, volume, abv)], where [onAddDrink]
    is the store's [addDrink] called without a timestamp.  [generatedName]
    is built from the tables [COMMON_SIZES] and [COMMON_ABV], which are not
    among the sources; it is taken as given. *)
Definition handleAdd (generatedName : string) (newId : string) (now : Z)
    (s : t) (prevDrinks : list Drink) : list Drink :=
  addDrink newId now generatedName (volume s) (abv s) None prevDrinks.

End ManualCalculator.

(** ** The free-text input ([SmartInput.tsx]) *)

(** One drink returned by [parseDrinkInput], [{ name, volumeMl, abv }], with
    the identifier and the clock reading that [addDrink] draws when it is
    added. *)
Record ParsedDrink : Type := mkParsed
  { parsedName : string;
    parsedVolumeMl : Q;
    parsedAbv : Q;
    drawnId : string;
    drawnNow : Z }.

(** [drinks.forEach((d) => onAddDrink(d.name, d.volumeMl, d.abv))] *)
Definition addParsedDrinks (parsed : list ParsedDrink) (prevDrinks : list Drink)
  : list Drink :=
  fold_left
    (fun acc d =>
       addDrink (drawnId d) (drawnNow d) (parsedName d) (parsedVolumeMl d)
         (parsedAbv d) None acc)
    parsed prevDrinks.

(** The part of [handleSubmit] after a successful [parseDrinkInput]: the new
    store and the error message, if any. *)
Definition handleParsed (parsed : list ParsedDrink) (prevDrinks : list Drink)
  : list Drink * option string :=
  match parsed with
  | [] =>
      (prevDrinks,
       Some "Could not identify any drinks. Try being more specific."%string)
  | _ :: _ => (addParsedDrinks parsed prevDrinks, None)
  end.

(** ** Vocabulary of the statements *)

(** [sortedDrinks[0].timestamp], the session start. *)
Definition firstDrinkTime (drinks : list Drink) : Z :=
  match sortDrinks drinks with
  | first :: _ => timestamp first
  | [] => 0
  end.

(** The batches of [n] consecutive steps starting at time [t]. *)
Fixpoint batchesFrom (sortedDrinks : list Drink) (t : Z) (n : nat)
  : list (list Drink) :=
  match n with
  | O => []
  | S n' =>
      drinksInInterval sortedDrinks t (t + stepMs)
        :: batchesFrom sortedDrinks (t + stepMs) n'
  end.

(** The sample times of [n] consecutive steps starting at time [t]. *)
Fixpoint timesFrom (t : Z) (n : nat) : list Z :=
  match n with
  | O => []
  | S n' => (t + stepMs) :: timesFrom (t + stepMs) n'
  end.

(** How many times the event with identifier [i] occurs in a list of events,
    and in a sequence of absorbed batches. *)
Definition occurrences (i : string) (l : list Drink) : nat :=
  List.length (filter (fun d => String.eqb (id d) i) l).

Definition timesAbsorbed (i : string) (batches : list (list Drink)) : nat :=
  occurrences i (concat batches).

(** The sum of the standard drinks of the events of a batch. *)
Fixpoint batchTotal (batch : list Drink) : Q :=
  match batch with
  | [] => 0%Q
  | d :: ds => (standardDrinks d + batchTotal ds)%Q
  end.

(** The events of a batch other than the one with identifier [i]. *)
Definition otherDrinks (i : string) (batch : list Drink) : list Drink :=
  filter (fun e => negb (String.eqb (id e) i)) batch.

(** Elimination over one step, on the net reached after absorption: a
    positive net loses [burnAmount] and is reset to zero when that takes it
    below zero. *)
Definition eliminate (burnAmount net : Q) : Q :=
  if Qlt_bool 0 net
  then (if Qlt_bool (net - burnAmount) 0 then 0%Q else (net - burnAmount)%Q)
  else net.

(** The burn amount of step [k], counted from 0: the first-hour amount
    while [k] steps make less than an hour. *)
Definition burnOfStep (firstHourBurn subsequentHourBurn : Q) (k : nat) : Q :=
  if Z.of_nat k * stepMs <? 60 * 60 * 1000
  then stepBurnFirstHour firstHourBurn
  else stepBurnSubsequent subsequentHourBurn.

(** The nets that a sequence of step batches produces from the net [net]
    before step [k]: each step adds the standard drinks of every event of its
    batch to the net and then eliminates. *)
Fixpoint netsFrom (firstHourBurn subsequentHourBurn : Q) (k : nat) (net : Q)
    (stepBatches : list (list Drink)) : list Q :=
  match stepBatches with
  | [] => []
  | batch :: rest =>
      let net' :=
        eliminate (burnOfStep firstHourBurn subsequentHourBurn k)
          (net + batchTotal batch) in
      net' :: netsFrom firstHourBurn subsequentHourBurn (S k) net' rest
  end.

(** The net at every sample, as the batches determine it: the initial batch
    makes the net of the first sample, and every step batch that of the next
    one. *)
Definition netTrace (firstHourBurn subsequentHourBurn : Q)
    (initial : list Drink) (stepBatches : list (list Drink)) : list Q :=
  batchTotal initial
    :: netsFrom firstHourBurn subsequentHourBurn 0 (batchTotal initial)
         stepBatches.

(** A series shows the nets [nets]: sample by sample, its BAC is [toBAC] of
    the net. *)
Definition showsNets (weight : Q) (gender : Gender) (pts : list DataPoint)
    (nets : list Q) : Prop :=
  Forall2 (fun p net => (bac p == toBAC weight gender net)%Q) pts nets.

(** The reading of "every event is absorbed exactly once". *)
Definition absorbedExactlyOnce (drinks : list Drink)
    (batches : list (list Drink)) : Prop :=
  forall d, In d drinks -> timesAbsorbed (id d) batches = 1%nat.

(** Ascending order of timestamps. *)
Definition byTimestamp (a b : Drink) : Prop := timestamp a <= timestamp b.

Definition nonNegativeDrinks (drinks : list Drink) : Prop :=
  Forall (fun d => (0 <= standardDrinks d)%Q) drinks.

(** The standard drinks of an event are those of its own volume and strength. *)
Definition frozenAtCreation (d : Drink) : Prop :=
  (standardDrinks d == standardDrinksOf (volumeMl d) (abv d))%Q.

(** Sample data used to exercise the statements. *)
Definition noLabel (t : Z) : string := EmptyString.

Definition sampleDrink (i : string) (sd : Q) (t : Z) : Drink :=
  mkDrink i i 375 5 sd t.

Definition beer : Drink :=
  mkDrink "beer" "Lager" 375 5 (standardDrinksOf 375 5) 1700000000000.

Definition sampleSeries (l : list Q) : list DataPoint :=
  map (fun b => mkPoint 0 b EmptyString) l.

(** The series of the peak-detection example, and one that never comes back
    to the limit. *)
Definition crossingSeries : list DataPoint :=
  sampleSeries [0.01; 0.08; 0.06; 0.03]%Q.

Definition risingSeries : list DataPoint :=
  sampleSeries [0.06; 0.09; 0.08; 0.07]%Q.

(** Two drinks half a second apart. *)
Definition closeDrinks : list Drink :=
  [sampleDrink "first" 1 0; sampleDrink "second" 1 500].

(** Two drinks more than 288 steps apart. *)
Definition lateDrinks : list Drink :=
  [sampleDrink "first" 1 0; sampleDrink "late" 1 (288 * stepMs + 1)].

(** Two drinks three hours apart. *)
Definition eveningDrinks : list Drink :=
  [sampleDrink "first" 1 0; sampleDrink "nightcap" 1 (3 * 60 * 60 * 1000)].

(** The event that [addDrink] makes of a parsed drink. *)
Definition drinkOfParsed (d : ParsedDrink) : Drink :=
  mkDrink (drawnId d) (parsedName d) (parsedVolumeMl d) (parsedAbv d)
    (standardDrinksOf (parsedVolumeMl d) (parsedAbv d)) (drawnNow d).

(** Between two consecutive samples of which the first is at or after [T],
    the BAC does not rise. *)
Definition decaysAfter (T : Z) (pts : list DataPoint) : Prop :=
  forall i p q,
    nth_error pts i = Some p -> nth_error pts (S i) = Some q ->
    T <= time p -> (bac q <= bac p)%Q.

(** A round of drinks as the free-text input returns it. *)
Definition parsedRound : list ParsedDrink :=
  [mkParsed "Guinness" 568 4.2 "id1" 1700000000000;
   mkParsed "Tequila" 30 40 "id2" 1700000000001].

(** * Facts *)

(** ** Comparisons of rationals *)

Lemma Qlt_bool_iff (a b : Q) : Qlt_bool a b = true <-> (a < b)%Q.
Proof.
  unfold Qlt_bool. rewrite negb_true_iff.
  destruct (Qle_bool b a) eqn:E.
  - apply Qle_bool_iff in E. split; [discriminate | intro; lra].
  - split; [intros _ | reflexivity].
    apply Qnot_le_lt. intro H. apply Qle_bool_iff in H. congruence.
Qed.

Lemma Qlt_bool_false (a b : Q) : Qlt_bool a b = false <-> (b <= a)%Q.
Proof.
  unfold Qlt_bool. rewrite negb_false_iff. apply Qle_bool_iff.
Qed.

Lemma Qle_bool_false (a b : Q) : Qle_bool a b = false <-> (b < a)%Q.
Proof.
  split; intro H.
  - apply Qnot_le_lt. intro L. apply Qle_bool_iff in L. congruence.
  - destruct (Qle_bool a b) eqn:E; [| reflexivity].
    apply Qle_bool_iff in E. lra.
Qed.

(** ** The sort *)

Lemma insertDrink_perm (d : Drink) (l : list Drink) :
  Permutation (insertDrink d l) (d :: l).
Proof.
  induction l as [| x xs IH]; simpl.
  - apply Permutation_refl.
  - destruct (timestamp d <=? timestamp x).
    + apply Permutation_refl.
    + eapply perm_trans; [apply perm_skip, IH | apply perm_swap].
Qed.

Lemma sortDrinks_perm (l : list Drink) : Permutation (sortDrinks l) l.
Proof.
  induction l as [| d l IH]; simpl.
  - constructor.
  - eapply perm_trans; [apply insertDrink_perm | now apply perm_skip].
Qed.

Lemma insertDrink_sorted (d : Drink) (l : list Drink) :
  StronglySorted byTimestamp l -> StronglySorted byTimestamp (insertDrink d l).
Proof.
  induction 1 as [| x xs Hs IH Hx]; simpl.
  - repeat constructor.
  - destruct (Z.leb_spec (timestamp d) (timestamp x)) as [Hle | Hgt].
    + constructor; [now constructor |].
      constructor; [exact Hle |].
      rewrite Forall_forall in *. intros y Hy.
      unfold byTimestamp in *. specialize (Hx y Hy). lia.
    + constructor; [exact IH |].
      rewrite Forall_forall in *. intros y Hy.
      apply (Permutation_in _ (insertDrink_perm d xs)) in Hy.
      destruct Hy as [<- | Hy]; [unfold byTimestamp; lia | now apply Hx].
Qed.

Lemma sortDrinks_sorted (l : list Drink) :
  StronglySorted byTimestamp (sortDrinks l).
Proof.
  induction l; simpl; [constructor | now apply insertDrink_sorted].
Qed.

Lemma sortDrinks_In (l : list Drink) (d : Drink) :
  In d (sortDrinks l) <-> In d l.
Proof.
  split; apply Permutation_in;
    [apply sortDrinks_perm | apply Permutation_sym, sortDrinks_perm].
Qed.

Lemma sortDrinks_nonempty (d : Drink) (l : list Drink) :
  exists first rest, sortDrinks (d :: l) = first :: rest.
Proof.
  destruct (sortDrinks (d :: l)) as [| first rest] eqn:E.
  - assert (H : In d (sortDrinks (d :: l))) by (apply sortDrinks_In; now left).
    rewrite E in H. destruct H.
  - eauto.
Qed.

Lemma sorted_head_least (first : Drink) (rest : list Drink) (d : Drink) :
  StronglySorted byTimestamp (first :: rest) ->
  In d (first :: rest) -> timestamp first <= timestamp d.
Proof.
  intros Hs [<- | Hin]; [lia |].
  inversion Hs as [| ? ? _ Hall]; subst.
  rewrite Forall_forall in Hall. now apply Hall.
Qed.

Lemma sorted_last_greatest (l : list Drink) (dflt d : Drink) :
  StronglySorted byTimestamp l ->
  In d l -> timestamp d <= timestamp (last l dflt).
Proof.
  intro Hs. revert d.
  induction Hs as [| x xs Hs IH Hx]; intros d Hin; [destruct Hin |].
  destruct xs as [| y ys].
  - destruct Hin as [<- | []]. simpl. lia.
  - change (last (x :: y :: ys) dflt) with (last (y :: ys) dflt).
    destruct Hin as [<- | Hin]; [| now apply IH].
    rewrite Forall_forall in Hx.
    assert (H1 : byTimestamp x y) by (apply Hx; now left).
    assert (H2 : timestamp y <= timestamp (last (y :: ys) dflt))
      by (apply IH; now left).
    unfold byTimestamp in H1. lia.
Qed.

Lemma firstDrinkTime_least (drinks : list Drink) (d : Drink) :
  In d drinks -> firstDrinkTime drinks <= timestamp d.
Proof.
  intro Hin. unfold firstDrinkTime.
  assert (Hs := sortDrinks_sorted drinks).
  apply sortDrinks_In in Hin.
  destruct (sortDrinks drinks) as [| first rest]; [destruct Hin |].
  now apply (sorted_head_least first rest).
Qed.

Lemma firstDrinkTime_attained (drinks : list Drink) :
  drinks <> [] ->
  exists d, In d drinks /\ timestamp d = firstDrinkTime drinks.
Proof.
  intro Hne. destruct drinks as [| d0 l]; [congruence |].
  destruct (sortDrinks_nonempty d0 l) as (first & rest & E).
  exists first. split.
  - apply sortDrinks_In. rewrite E. now left.
  - unfold firstDrinkTime. now rewrite E.
Qed.

(** ** The loop *)

Lemma maxSteps_eq : maxSteps = 288.
Proof. reflexivity. Qed.

Lemma stepMs_eq : stepMs = 600000.
Proof. reflexivity. Qed.

Arguments maxSteps : simpl never.
Arguments stepMs : simpl never.

Ltac constants := rewrite ?maxSteps_eq, ?stepMs_eq in *.

Lemma absorb_nonneg (ds : list Drink) : forall net,
  (0 <= net)%Q -> nonNegativeDrinks ds -> (0 <= absorb net ds)%Q.
Proof.
  unfold absorb, nonNegativeDrinks.
  induction ds as [| d ds IH]; intros net Hnet Hall; simpl; [exact Hnet |].
  inversion Hall as [| ? ? Hd Hds]; subst.
  apply IH; [lra | exact Hds].
Qed.

Lemma nonNegative_interval (ds : list Drink) (a b : Z) :
  nonNegativeDrinks ds -> nonNegativeDrinks (drinksInInterval ds a b).
Proof.
  unfold nonNegativeDrinks, drinksInInterval. rewrite !Forall_forall.
  intros H d Hd. apply filter_In in Hd. now apply H.
Qed.

Lemma nonNegative_initial (ds : list Drink) (t : Z) :
  nonNegativeDrinks ds -> nonNegativeDrinks (initialDrinks ds t).
Proof.
  unfold nonNegativeDrinks, initialDrinks. rewrite !Forall_forall.
  intros H d Hd. apply filter_In in Hd. now apply H.
Qed.

Lemma nonNegative_sort (ds : list Drink) :
  nonNegativeDrinks ds -> nonNegativeDrinks (sortDrinks ds).
Proof.
  unfold nonNegativeDrinks. rewrite !Forall_forall.
  intros H d Hd. apply H. now apply sortDrinks_In.
Qed.

Section LoopFacts.

Variable toLocaleTimeString : Z -> string.
Variables firstHourBurn subsequentHourBurn weight : Q.
Variable gender : Gender.

Local Abbreviation BAC := (toBAC weight gender).

Lemma effectiveWeight_pos : (0 < effectiveWeight weight)%Q.
Proof.
  unfold effectiveWeight. destruct (Qlt_bool 0 weight) eqn:E.
  - now apply Qlt_bool_iff.
  - reflexivity.
Qed.

Lemma r_pos : (0 < r gender)%Q.
Proof. unfold r. destruct gender; reflexivity. Qed.

Lemma divisor_pos : (0 < effectiveWeight weight * r gender)%Q.
Proof.
  apply Qmult_lt_0_compat; [apply effectiveWeight_pos | apply r_pos].
Qed.

Lemma toBAC_nonneg (net : Q) : (0 <= net)%Q -> (0 <= BAC net)%Q.
Proof.
  intro H. unfold toBAC.
  apply Qle_shift_div_l; [apply divisor_pos | lra].
Qed.

Variable sortedDrinks : list Drink.
Variable lastDrinkTime : Z.

Local Abbreviation body :=
  (loopBody toLocaleTimeString firstHourBurn subsequentHourBurn weight gender
     sortedDrinks lastDrinkTime).
Local Abbreviation loop :=
  (whileLoop toLocaleTimeString firstHourBurn subsequentHourBurn weight gender
     sortedDrinks lastDrinkTime).

(** What one body does: it appends the sample of [nextTime], absorbs the
    batch of [(currentTime, nextTime]], and either leaves the loop (only
    when [currentTime] is past the last drink) or advances by one step. *)
Lemma loopBody_spec (st : SimState) :
  let nextTime := currentTime st + stepMs in
  let batch := drinksInInterval sortedDrinks (currentTime st) nextTime in
  exists net2,
    ((0 <= currentNetSD st)%Q -> nonNegativeDrinks sortedDrinks ->
     (0 <= net2)%Q) /\
    let pts :=
      dataPoints st ++ [mkPoint nextTime (BAC net2) (toLocaleTimeString nextTime)] in
    (body st = (mkState net2 (currentTime st) (timeSinceStart st) (steps st) pts,
                true, batch)
     /\ lastDrinkTime < currentTime st /\ (BAC net2 <= 0.001)%Q)
    \/
    body st = (mkState net2 nextTime (timeSinceStart st + stepMs) (steps st + 1) pts,
               false, batch).
Proof.
  intros nextTime batch. unfold loopBody. fold nextTime. fold batch.
  set (net1 := absorb (currentNetSD st) batch).
  set (burnAmount := if timeSinceStart st <? 60 * 60 * 1000
                     then stepBurnFirstHour firstHourBurn
                     else stepBurnSubsequent subsequentHourBurn).
  set (net2 := if Qlt_bool 0 net1
               then (let n := (net1 - burnAmount)%Q in
                     if Qlt_bool n 0 then 0%Q else n)
               else net1).
  exists net2. split.
  - intros Hnet Hall.
    assert (H1 : (0 <= net1)%Q)
      by (apply absorb_nonneg; [exact Hnet | now apply nonNegative_interval]).
    subst net2. destruct (Qlt_bool 0 net1); [| exact H1].
    cbv zeta. destruct (Qlt_bool (net1 - burnAmount) 0) eqn:E; [lra |].
    now apply Qlt_bool_false in E.
  - cbv zeta.
    destruct ((lastDrinkTime <? currentTime st) && Qle_bool (BAC net2) 0.001)
      eqn:E; [left | right; reflexivity].
    apply andb_true_iff in E. destruct E as [E1 E2].
    apply Z.ltb_lt in E1. apply Qle_bool_iff in E2. auto.
Qed.

Lemma whileLoop_done (fuel : nat) (st : SimState) :
  (steps st <? maxSteps) = false -> loop fuel st = Some (st, []).
Proof. intro H. destruct fuel; simpl; now rewrite H. Qed.

Lemma whileLoop_step (fuel : nat) (st : SimState) :
  (steps st <? maxSteps) = true ->
  loop (S fuel) st =
    match body st with
    | (st', true, batch) => Some (st', [batch])
    | (st', false, batch) =>
        match loop fuel st' with
        | Some (st'', batches) => Some (st'', batch :: batches)
        | None => None
        end
    end.
Proof. intro H. simpl. now rewrite H. Qed.

(** More fuel does not change a result. *)
Lemma whileLoop_fuel_mono (fuel : nat) : forall fuel' st res,
  (fuel <= fuel')%nat -> loop fuel st = Some res -> loop fuel' st = Some res.
Proof.
  induction fuel as [| fuel IH]; intros fuel' st res Hle Hrun.
  - destruct (steps st <? maxSteps) eqn:E.
    + simpl in Hrun. rewrite E in Hrun. discriminate.
    + rewrite whileLoop_done in * by exact E. exact Hrun.
  - destruct fuel' as [| fuel']; [lia |].
    destruct (steps st <? maxSteps) eqn:E.
    + rewrite whileLoop_step in * by exact E.
      destruct (body st) as [[st' [|]] batch]; [exact Hrun |].
      destruct (loop fuel st') as [[st'' batches] |] eqn:R; [| discriminate].
      rewrite (IH fuel' st' (st'', batches)); [exact Hrun | lia | exact R].
    + rewrite whileLoop_done in * by exact E. exact Hrun.
Qed.

(** The loop ends within the step budget, and its effect is described by
    the number [n] of bodies it executed. *)
Lemma whileLoop_run (fuel : nat) : forall st,
  0 <= steps st <= maxSteps ->
  (Z.to_nat (maxSteps - steps st) <= fuel)%nat ->
  exists st' n newPts,
    loop fuel st = Some (st', batchesFrom sortedDrinks (currentTime st) n) /\
    Z.of_nat n <= maxSteps - steps st /\
    (steps st < maxSteps -> (1 <= n)%nat) /\
    dataPoints st' = dataPoints st ++ newPts /\
    map time newPts = timesFrom (currentTime st) n /\
    (Z.of_nat n = maxSteps - steps st \/
     lastDrinkTime < currentTime st + (Z.of_nat n - 1) * stepMs) /\
    ((0 <= currentNetSD st)%Q -> nonNegativeDrinks sortedDrinks ->
     Forall (fun p => exists net, (0 <= net)%Q /\ bac p = BAC net) newPts).
Proof.
  assert (Hstop : forall st, 0 <= steps st <= maxSteps ->
            (steps st <? maxSteps) = false ->
            exists st' n newPts,
              Some (st, @nil (list Drink))
                = Some (st', batchesFrom sortedDrinks (currentTime st) n) /\
              Z.of_nat n <= maxSteps - steps st /\
              (steps st < maxSteps -> (1 <= n)%nat) /\
              dataPoints st' = dataPoints st ++ newPts /\
              map time newPts = timesFrom (currentTime st) n /\
              (Z.of_nat n = maxSteps - steps st \/
               lastDrinkTime < currentTime st + (Z.of_nat n - 1) * stepMs) /\
              ((0 <= currentNetSD st)%Q -> nonNegativeDrinks sortedDrinks ->
               Forall (fun p => exists net, (0 <= net)%Q /\ bac p = BAC net)
                      newPts)).
  { intros st Hsteps E. apply Z.ltb_ge in E.
    exists st, 0%nat, []. cbn [batchesFrom timesFrom map].
    rewrite app_nil_r.
    split; [reflexivity |]. split; [lia |]. split; [lia |].
    split; [reflexivity |]. split; [reflexivity |].
    split; [left; lia | intros; constructor]. }
  induction fuel as [| fuel IH]; intros st Hsteps Hfuel.
  - assert (E : (steps st <? maxSteps) = false) by (apply Z.ltb_ge; lia).
    rewrite whileLoop_done by exact E. now apply Hstop.
  - destruct (steps st <? maxSteps) eqn:E.
    2:{ rewrite whileLoop_done by exact E. now apply Hstop. }
    apply Z.ltb_lt in E.
    rewrite whileLoop_step by (now apply Z.ltb_lt).
    destruct (loopBody_spec st) as (net2 & Hnn & [(Hb & Hlast & _) | Hb]);
      rewrite Hb.
    + eexists _, 1%nat, [_]. cbn [batchesFrom timesFrom map dataPoints].
      split; [reflexivity |]. split; [lia |]. split; [lia |].
      split; [reflexivity |]. split; [reflexivity |].
      split; [right; lia |].
      intros H0 Hall. constructor; [| constructor].
      exists net2. split; [now apply Hnn | reflexivity].
    + match goal with
      | |- context [loop fuel ?s] => set (st1 := s)
      end.
      destruct (IH st1)
        as (st' & n & newPts & Hrun & Hn & _ & Hpts & Htimes & Hend & Hbac).
      { subst st1; cbn [steps]. lia. }
      { subst st1; cbn [steps]. lia. }
      rewrite Hrun. subst st1.
      cbn [steps currentTime currentNetSD dataPoints] in *.
      eexists st', (S n), (_ :: newPts).
      cbn [batchesFrom timesFrom map time].
      split; [reflexivity |]. split; [lia |]. split; [lia |].
      split; [rewrite Hpts, <- app_assoc; reflexivity |].
      split; [now rewrite Htimes |].
      split.
      * destruct Hend as [Hend | Hend]; [left; lia | right].
        constants. lia.
      * intros H0 Hall. constructor.
        -- exists net2. split; [now apply Hnn | reflexivity].
        -- apply Hbac; [now apply Hnn | exact Hall].
Qed.

End LoopFacts.

(** ** The whole simulation *)

Lemma timesFrom_length (n : nat) : forall t, List.length (timesFrom t n) = n.
Proof. induction n; intro t; simpl; [reflexivity | now rewrite IHn]. Qed.

Lemma timesFrom_nth (n : nat) : forall t i x,
  nth_error (t :: timesFrom t n) i = Some x -> x = t + Z.of_nat i * stepMs.
Proof.
  induction n as [| n IH]; intros t i x H.
  - destruct i as [| i]; simpl in H; [injection H as <-; lia |].
    destruct i; discriminate.
  - destruct i as [| i]; [simpl in H; injection H as <-; lia |].
    change (nth_error ((t + stepMs) :: timesFrom (t + stepMs) n) i = Some x) in H.
    apply IH in H. lia.
Qed.

Section SimulationFacts.

Variable toLocaleTimeString : Z -> string.
Variables firstHourBurn subsequentHourBurn weight : Q.
Variable gender : Gender.

Local Abbreviation BAC := (toBAC weight gender).
Local Abbreviation sim :=
  (simulate toLocaleTimeString firstHourBurn subsequentHourBurn weight gender).

Lemma simulate_fuel_mono (fuel fuel' : nat) (drinks : list Drink) res :
  (fuel <= fuel')%nat -> sim fuel drinks = Some res -> sim fuel' drinks = Some res.
Proof.
  intros Hle. unfold simulate.
  destruct drinks as [| d0 l]; [auto |].
  destruct (sortDrinks (d0 :: l)) as [| first rest]; [auto |].
  match goal with
  | |- context [whileLoop ?a ?b ?c ?d ?e ?f ?g fuel ?s] =>
      destruct (whileLoop a b c d e f g fuel s) as [[st bs] |] eqn:R;
      [| discriminate]
  end.
  rewrite (whileLoop_fuel_mono _ _ _ _ _ _ _ fuel fuel' _ _ Hle R).
  auto.
Qed.

Lemma simulate_unfold (fuel : nat) (drinks : list Drink) first rest :
  drinks <> [] -> sortDrinks drinks = first :: rest ->
  let sorted := sortDrinks drinks in
  let start := timestamp first in
  let initial := initialDrinks sorted start in
  sim fuel drinks =
    match whileLoop toLocaleTimeString firstHourBurn subsequentHourBurn
            weight gender sorted (timestamp (last sorted first)) fuel
            (mkState (absorb 0 initial) start 0 0
               [mkPoint start (BAC (absorb 0 initial))
                  (toLocaleTimeString start)]) with
    | Some (st, batches) => Some (dataPoints st, initial :: batches)
    | None => None
    end.
Proof.
  intros Hne E. unfold simulate.
  destruct drinks as [| d0 l]; [congruence |].
  rewrite E. reflexivity.
Qed.

(** The shape of every run on a non-empty list: the first sample, then [n]
    steps, with [1 <= n <= 288]; the loop stops before the budget only
    once [currentTime] is past every drink. *)
Lemma simulate_run (fuel : nat) (drinks : list Drink) :
  drinks <> [] -> (288 <= fuel)%nat ->
  let sorted := sortDrinks drinks in
  let start := firstDrinkTime drinks in
  let initial := initialDrinks sorted start in
  exists n newPts,
    sim fuel drinks =
      Some (mkPoint start (BAC (absorb 0 initial)) (toLocaleTimeString start)
              :: newPts,
            initial :: batchesFrom sorted start n) /\
    (1 <= n <= 288)%nat /\
    map time newPts = timesFrom start n /\
    (n = 288%nat \/
     forall d, In d drinks -> timestamp d < start + (Z.of_nat n - 1) * stepMs) /\
    (nonNegativeDrinks drinks ->
     Forall (fun p => exists net, (0 <= net)%Q /\ bac p = BAC net) newPts).
Proof.
  intros Hne Hfuel sorted start initial.
  destruct drinks as [| d0 l]; [congruence |].
  destruct (sortDrinks_nonempty d0 l) as (first & rest & E).
  assert (Hstart : start = timestamp first)
    by (subst start; unfold firstDrinkTime; now rewrite E).
  rewrite (simulate_unfold fuel (d0 :: l) first rest Hne E).
  fold sorted. subst initial. rewrite Hstart.
  assert (Es : sorted = first :: rest) by exact E.
  clearbody sorted start. cbv zeta.
  set (st0 := mkState _ _ _ _ _).
  destruct (whileLoop_run toLocaleTimeString firstHourBurn subsequentHourBurn
              weight gender sorted (timestamp (last sorted first)) fuel st0)
    as (st' & n & newPts & Hrun & Hn & Hn1 & Hpts & Htimes & Hend & Hbac).
  { subst st0; cbn [steps]. constants. lia. }
  { subst st0; cbn [steps]. constants. lia. }
  rewrite Hrun. subst st0. cbn [steps currentTime currentNetSD dataPoints] in *.
  exists n, newPts. rewrite Hpts. cbn [app].
  split; [reflexivity |].
  split; [constants; lia |].
  split; [exact Htimes |].
  split.
  - destruct Hend as [Hend | Hend]; [left; constants; lia | right].
    intros d Hd.
    assert (Hle : timestamp d <= timestamp (last sorted first)).
    { apply sorted_last_greatest.
      - rewrite Es, <- E. apply sortDrinks_sorted.
      - rewrite Es, <- E. now apply sortDrinks_In. }
    lia.
  - intro Hnn. apply Hbac.
    + apply absorb_nonneg; [lra |].
      apply nonNegative_initial. rewrite Es, <- E. now apply nonNegative_sort.
    + rewrite Es, <- E. now apply nonNegative_sort.
Qed.

End SimulationFacts.

(** The complete result of a run on a non-empty list, the same for every
    fuel from the step budget on. *)
Lemma simulate_result (toLocaleTimeString : Z -> string)
    (firstHourBurn subsequentHourBurn weight : Q) (gender : Gender)
    (drinks : list Drink) :
  drinks <> [] ->
  let sorted := sortDrinks drinks in
  let start := firstDrinkTime drinks in
  let initial := initialDrinks sorted start in
  exists n newPts,
    (forall fuel, (288 <= fuel)%nat ->
       simulate toLocaleTimeString firstHourBurn subsequentHourBurn weight gender
         fuel drinks =
       Some (mkPoint start (toBAC weight gender (absorb 0 initial))
               (toLocaleTimeString start) :: newPts,
             initial :: batchesFrom sorted start n)) /\
    (1 <= n <= 288)%nat /\
    List.length newPts = n /\
    (forall i p, nth_error (mkPoint start (toBAC weight gender (absorb 0 initial))
                              (toLocaleTimeString start) :: newPts) i = Some p ->
                 time p = start + Z.of_nat i * stepMs) /\
    (n = 288%nat \/
     forall d, In d drinks -> timestamp d < start + (Z.of_nat n - 1) * stepMs) /\
    (nonNegativeDrinks drinks ->
     Forall (fun p => exists net, (0 <= net)%Q /\ bac p = toBAC weight gender net)
            newPts).
Proof.
  intros Hne sorted start initial.
  destruct (simulate_run toLocaleTimeString firstHourBurn subsequentHourBurn
              weight gender 288 drinks Hne (le_n _))
    as (n & newPts & Hrun & Hn & Htimes & Hend & Hbac).
  exists n, newPts.
  split; [| split; [exact Hn | split; [| split; [| split; [exact Hend | exact Hbac]]]]].
  - intros fuel Hfuel. eapply simulate_fuel_mono; [exact Hfuel | exact Hrun].
  - rewrite <- (length_map time), Htimes. apply timesFrom_length.
  - intros i p Hp.
    apply (map_nth_error time) in Hp. cbn [map time] in Hp.
    fold sorted start initial in Hp. rewrite Htimes in Hp.
    now apply timesFrom_nth in Hp.
Qed.

Lemma last_In {A : Type} (l : list A) (d : A) :
  l <> [] -> In (last l d) l.
Proof.
  induction l as [| x l IH]; [congruence |]. intros _.
  destruct l as [| y l]; [now left |].
  right. change (last (x :: y :: l) d) with (last (y :: l) d).
  apply IH. discriminate.
Qed.

Lemma batchesFrom_length (sorted : list Drink) (n : nat) : forall t,
  List.length (batchesFrom sorted t n) = n.
Proof. induction n; intro t; simpl; [reflexivity | now rewrite IHn]. Qed.

(** The run of the loop behind the result of [simulate]. *)
Lemma simulate_loop (toLocaleTimeString : Z -> string)
    (firstHourBurn subsequentHourBurn weight : Q) (gender : Gender)
    (drinks : list Drink) :
  drinks <> [] ->
  let sorted := sortDrinks drinks in
  let start := firstDrinkTime drinks in
  let initial := initialDrinks sorted start in
  let p0 := mkPoint start (toBAC weight gender (absorb 0 initial))
              (toLocaleTimeString start) in
  exists lastDrink st' batches,
    In lastDrink drinks /\
    (forall d, In d sorted -> timestamp d <= timestamp lastDrink) /\
    whileLoop toLocaleTimeString firstHourBurn subsequentHourBurn weight gender
      sorted (timestamp lastDrink) 288
      (mkState (absorb 0 initial) start 0 0 [p0]) = Some (st', batches) /\
    (Z.of_nat (List.length batches) <= maxSteps) /\
    (forall fuel, (288 <= fuel)%nat ->
       simulate toLocaleTimeString firstHourBurn subsequentHourBurn weight gender
         fuel drinks = Some (dataPoints st', initial :: batches)).
Proof.
  intros Hne sorted start initial p0.
  destruct drinks as [| d0 l]; [congruence |].
  destruct (sortDrinks_nonempty d0 l) as (first & rest & E).
  assert (Hstart : start = timestamp first)
    by (subst start; unfold firstDrinkTime; now rewrite E).
  assert (Hlast : In (last sorted first) sorted).
  { apply last_In. subst sorted. rewrite E. discriminate. }
  set (st0 := mkState (absorb 0 initial) start 0 0 [p0]).
  destruct (whileLoop_run toLocaleTimeString firstHourBurn subsequentHourBurn
              weight gender sorted (timestamp (last sorted first)) 288 st0)
    as (st' & n & newPts & Hrun & Hn & _).
  { subst st0; cbn [steps]. constants. lia. }
  { subst st0; cbn [steps]. constants. lia. }
  exists (last sorted first), st', (batchesFrom sorted (currentTime st0) n).
  split; [now apply sortDrinks_In |].
  split.
  { intros d Hd. apply sorted_last_greatest; [apply sortDrinks_sorted | exact Hd]. }
  split; [exact Hrun |].
  split.
  { assert (Hb : forall t, List.length (batchesFrom sorted t n) = n).
    { clear. induction n; intro t; simpl; [reflexivity | now rewrite IHn]. }
    rewrite Hb. subst st0. cbn [steps] in Hn. lia. }
  intros fuel Hfuel.
  apply (simulate_fuel_mono _ _ _ _ _ 288 fuel); [exact Hfuel |].
  rewrite (simulate_unfold _ _ _ _ _ 288 (d0 :: l) first rest Hne E).
  cbv zeta. fold sorted. rewrite <- Hstart. fold initial. fold p0. fold st0.
  now rewrite Hrun.
Qed.

(** ** Counting absorptions *)

Lemma occurrences_absent (i : string) (l : list Drink) :
  ~ In i (map id l) -> occurrences i l = 0%nat.
Proof.
  unfold occurrences. induction l as [| x l IH]; intro H; [reflexivity |].
  cbn [filter]. destruct (String.eqb_spec (id x) i) as [E | E].
  - exfalso. apply H. left. exact E.
  - apply IH. intro Hin. apply H. now right.
Qed.

Lemma filter_ids (P : Drink -> bool) (i : string) (l : list Drink) :
  In i (map id (filter P l)) -> In i (map id l).
Proof.
  rewrite !in_map_iff. intros (d & E & Hd).
  apply filter_In in Hd. exists d. tauto.
Qed.

(** With distinct identifiers, a filter of the list contains an event of the
    list once when the predicate holds of it and not at all otherwise. *)
Lemma occurrences_filter (P : Drink -> bool) (l : list Drink) (d : Drink) :
  NoDup (map id l) -> In d l ->
  occurrences (id d) (filter P l) = if P d then 1%nat else 0%nat.
Proof.
  induction l as [| x l IH]; intros Hnd Hin; [destruct Hin |].
  cbn [map] in Hnd. inversion Hnd as [| ? ? Hx Hl]; subst.
  destruct Hin as [-> | Hin].
  - cbn [filter]. destruct (P d).
    + unfold occurrences. cbn [filter]. rewrite String.eqb_refl. cbn [List.length].
      f_equal. apply occurrences_absent. intro H. now apply filter_ids in H.
    + apply occurrences_absent. intro H. now apply filter_ids in H.
  - assert (Hne : id x <> id d).
    { intro E. apply Hx. rewrite E. now apply in_map. }
    cbn [filter]. destruct (P x); [| now apply IH].
    unfold occurrences. cbn [filter].
    destruct (String.eqb_spec (id x) (id d)) as [E | _]; [contradiction |].
    now apply IH.
Qed.

Lemma timesAbsorbed_cons (i : string) (b : list Drink) (bs : list (list Drink)) :
  timesAbsorbed i (b :: bs) = (occurrences i b + timesAbsorbed i bs)%nat.
Proof.
  unfold timesAbsorbed, occurrences. cbn [concat].
  now rewrite filter_app, length_app.
Qed.

(** [n] consecutive steps from [t] absorb an event once when its timestamp
    lies in [(t, t + n * stepMs]] and not at all otherwise. *)
Lemma timesAbsorbed_steps (sorted : list Drink) (d : Drink) :
  NoDup (map id sorted) -> In d sorted ->
  forall n t,
    timesAbsorbed (id d) (batchesFrom sorted t n) =
    if (t <? timestamp d) && (timestamp d <=? t + Z.of_nat n * stepMs)
    then 1%nat else 0%nat.
Proof.
  intros Hnd Hin. induction n as [| n IH]; intro t.
  - cbn [batchesFrom]. unfold timesAbsorbed. cbn.
    destruct (Z.ltb_spec t (timestamp d)), (Z.leb_spec (timestamp d) (t + 0));
      cbn; try reflexivity; lia.
  - cbn [batchesFrom]. rewrite timesAbsorbed_cons, IH.
    unfold drinksInInterval. rewrite (occurrences_filter _ _ _ Hnd Hin).
    constants.
    destruct (Z.ltb_spec t (timestamp d)),
             (Z.leb_spec (timestamp d) (t + 600000)),
             (Z.ltb_spec (t + 600000) (timestamp d)),
             (Z.leb_spec (timestamp d) (t + 600000 + Z.of_nat n * 600000)),
             (Z.leb_spec (timestamp d) (t + Z.of_nat (S n) * 600000));
      cbn [andb Nat.add]; try reflexivity; lia.
Qed.

Lemma batchesFrom_nth (sorted : list Drink) (n : nat) : forall t k,
  (k < n)%nat ->
  nth_error (batchesFrom sorted t n) k =
  Some (drinksInInterval sorted (t + Z.of_nat k * stepMs)
          (t + (Z.of_nat k + 1) * stepMs)).
Proof.
  induction n as [| n IH]; intros t k Hk; [lia |].
  destruct k as [| k]; cbn [batchesFrom nth_error].
  - do 2 f_equal; lia.
  - rewrite IH by lia. do 2 f_equal; lia.
Qed.

(** ** The running net *)

Lemma absorb_total (batch : list Drink) : forall net,
  (absorb net batch == net + batchTotal batch)%Q.
Proof.
  unfold absorb.
  induction batch as [| d ds IH]; intro net; cbn [fold_left batchTotal]; [lra |].
  rewrite IH. lra.
Qed.

Ltac by_comparisons :=
  repeat match goal with
         | |- context [Qlt_bool ?x ?y] =>
             let H := fresh "C" in
             destruct (Qlt_bool x y) eqn:H;
             [apply Qlt_bool_iff in H | apply Qlt_bool_false in H]
         end.

Lemma eliminate_compat (burnAmount a b : Q) :
  (a == b)%Q -> (eliminate burnAmount a == eliminate burnAmount b)%Q.
Proof. intro E. unfold eliminate. by_comparisons; lra. Qed.

Lemma toBAC_compat (weight : Q) (gender : Gender) (a b : Q) :
  (a == b)%Q -> (toBAC weight gender a == toBAC weight gender b)%Q.
Proof. intro E. unfold toBAC. now rewrite E. Qed.

Lemma otherDrinks_absent (i : string) (l : list Drink) :
  ~ In i (map id l) -> otherDrinks i l = l.
Proof.
  unfold otherDrinks. induction l as [| x l IH]; intro H; [reflexivity |].
  cbn [filter]. destruct (String.eqb_spec (id x) i) as [E | E].
  - exfalso. apply H. left. exact E.
  - cbn [negb]. f_equal. apply IH. intro Hin. apply H. now right.
Qed.

(** With distinct identifiers, the total of a batch is the standard drinks of
    any of its events plus the total of the other events. *)
Lemma batchTotal_split (l : list Drink) (d : Drink) :
  NoDup (map id l) -> In d l ->
  (batchTotal l == standardDrinks d + batchTotal (otherDrinks (id d) l))%Q.
Proof.
  induction l as [| x l IH]; intros Hnd Hin; [destruct Hin |].
  cbn [map] in Hnd. inversion Hnd as [| ? ? Hx Hl]; subst.
  destruct Hin as [-> | Hin].
  - unfold otherDrinks. cbn [filter]. rewrite String.eqb_refl. cbn [negb].
    fold (otherDrinks (id d) l). rewrite (otherDrinks_absent _ _ Hx).
    reflexivity.
  - assert (Hne : id x <> id d).
    { intro E. apply Hx. rewrite E. now apply in_map. }
    unfold otherDrinks. cbn [filter].
    destruct (String.eqb_spec (id x) (id d)) as [E | _]; [contradiction |].
    cbn [negb batchTotal]. fold (otherDrinks (id d) l).
    rewrite (IH Hl Hin). lra.
Qed.

Lemma NoDup_ids_filter (P : Drink -> bool) (l : list Drink) :
  NoDup (map id l) -> NoDup (map id (filter P l)).
Proof.
  induction l as [| x l IH]; intro Hnd; [constructor |].
  cbn [map] in Hnd. inversion Hnd as [| ? ? Hx Hl]; subst.
  cbn [filter]. destruct (P x); [| now apply IH].
  cbn [map]. constructor; [| now apply IH].
  intro H. apply Hx. now apply (filter_ids _ _ _ H).
Qed.

Section LoopNets.

Variable toLocaleTimeString : Z -> string.
Variables firstHourBurn subsequentHourBurn weight : Q.
Variable gender : Gender.
Variable sortedDrinks : list Drink.
Variable lastDrinkTime : Z.

Local Abbreviation BAC := (toBAC weight gender).
Local Abbreviation body :=
  (loopBody toLocaleTimeString firstHourBurn subsequentHourBurn weight gender
     sortedDrinks lastDrinkTime).
Local Abbreviation loop :=
  (whileLoop toLocaleTimeString firstHourBurn subsequentHourBurn weight gender
     sortedDrinks lastDrinkTime).

(** The net a body leaves: the net it found, with the standard drinks of its
    batch absorbed, after elimination; the sample it appends shows that
    net. *)
Lemma loopBody_net (st : SimState) :
  let nextTime := currentTime st + stepMs in
  let batch := drinksInInterval sortedDrinks (currentTime st) nextTime in
  let burnAmount :=
    if timeSinceStart st <? 60 * 60 * 1000
    then stepBurnFirstHour firstHourBurn
    else stepBurnSubsequent subsequentHourBurn in
  let net2 := eliminate burnAmount (absorb (currentNetSD st) batch) in
  let pts :=
    dataPoints st ++ [mkPoint nextTime (BAC net2) (toLocaleTimeString nextTime)] in
  body st = (mkState net2 (currentTime st) (timeSinceStart st) (steps st) pts,
             true, batch)
  \/
  body st = (mkState net2 nextTime (timeSinceStart st + stepMs) (steps st + 1) pts,
             false, batch).
Proof.
  cbv zeta. unfold loopBody, eliminate. cbv zeta.
  match goal with
  | |- context [if ?c then (_, true, _) else _] => destruct c
  end; [left | right]; reflexivity.
Qed.

(** The samples the loop appends show the nets that its batches determine. *)
Lemma whileLoop_nets (fuel : nat) : forall st st' batches k net,
  loop fuel st = Some (st', batches) ->
  timeSinceStart st = Z.of_nat k * stepMs ->
  (currentNetSD st == net)%Q ->
  exists newPts,
    dataPoints st' = dataPoints st ++ newPts /\
    showsNets weight gender newPts
      (netsFrom firstHourBurn subsequentHourBurn k net batches).
Proof.
  induction fuel as [| fuel IH]; intros st st' batches k net Hrun Hk Hnet;
    destruct (steps st <? maxSteps) eqn:E;
    try (rewrite whileLoop_done in Hrun by exact E;
         injection Hrun as <- <-; exists []; rewrite app_nil_r;
         split; [reflexivity | constructor]).
  - simpl in Hrun. rewrite E in Hrun. discriminate.
  - rewrite whileLoop_step in Hrun by exact E.
    set (batch := drinksInInterval sortedDrinks (currentTime st)
                    (currentTime st + stepMs)).
    assert (Hstep :
      (eliminate
         (if timeSinceStart st <? 60 * 60 * 1000
          then stepBurnFirstHour firstHourBurn
          else stepBurnSubsequent subsequentHourBurn)
         (absorb (currentNetSD st) batch)
       == eliminate (burnOfStep firstHourBurn subsequentHourBurn k)
            (net + batchTotal batch))%Q).
    { unfold burnOfStep. rewrite <- Hk. apply eliminate_compat.
      rewrite absorb_total, Hnet. reflexivity. }
    destruct (loopBody_net st) as [Hb | Hb]; fold batch in Hb;
      rewrite Hb in Hrun.
    + injection Hrun as <- <-. cbn [dataPoints netsFrom].
      eexists [_]. split; [reflexivity |].
      constructor; [| constructor]. cbn [bac].
      now apply toBAC_compat.
    + match type of Hrun with
      | context [loop fuel ?s] =>
          destruct (loop fuel s) as [[st'' bs] |] eqn:R; [| discriminate]
      end.
      injection Hrun as <- <-.
      destruct (IH _ _ _ (S k)
                  (eliminate (burnOfStep firstHourBurn subsequentHourBurn k)
                     (net + batchTotal batch)) R)
        as (newPts & Hpts & Hshow).
      { cbn [timeSinceStart]. rewrite Hk. lia. }
      { cbn [currentNetSD]. exact Hstep. }
      cbn [dataPoints] in Hpts. cbn [netsFrom].
      eexists (_ :: newPts). split; [rewrite Hpts, <- app_assoc; reflexivity |].
      constructor; [| exact Hshow]. cbn [bac]. now apply toBAC_compat.
Qed.

End LoopNets.

(** The series of a non-empty list shows the nets that its batches
    determine: what every batch holds is added to the running net. *)
Lemma simulate_nets (toLocaleTimeString : Z -> string)
    (firstHourBurn subsequentHourBurn weight : Q) (gender : Gender)
    (drinks : list Drink) (fuel : nat) pts initial stepBatches :
  drinks <> [] -> (288 <= fuel)%nat ->
  simulate toLocaleTimeString firstHourBurn subsequentHourBurn weight gender
    fuel drinks = Some (pts, initial :: stepBatches) ->
  showsNets weight gender pts
    (netTrace firstHourBurn subsequentHourBurn initial stepBatches).
Proof.
  intros Hne Hfuel Hsome.
  destruct (simulate_loop toLocaleTimeString firstHourBurn subsequentHourBurn
              weight gender drinks Hne)
    as (lastDrink & st' & bs & _ & _ & Hloop & _ & Hsim).
  rewrite (Hsim fuel Hfuel) in Hsome. injection Hsome as <- <- <-.
  destruct (whileLoop_nets _ _ _ _ _ _ _ _ _ _ _ 0%nat
              (batchTotal (initialDrinks (sortDrinks drinks)
                             (firstDrinkTime drinks))) Hloop)
    as (newPts & Hpts & Hshow).
  { reflexivity. }
  { cbn [currentNetSD]. rewrite absorb_total. lra. }
  rewrite Hpts. cbn [dataPoints app]. unfold netTrace.
  constructor; [| exact Hshow]. cbn [bac].
  apply toBAC_compat. rewrite absorb_total. lra.
Qed.

(** ** The analytics scans *)

Section Scans.

Variable pts : list DataPoint.

Local Abbreviation scan :=
  (fun peakIndex i =>
     if Qlt_bool (bacAt pts peakIndex) (bacAt pts i) then i else peakIndex).

(** Invariant of the peak scan over the indices [a, a + m): the candidate
    is at least every sample seen so far and strictly above every sample
    before it. *)
Lemma peakScan_invariant (m : nat) : forall a k,
  (k < a)%nat ->
  (forall j, (j < a)%nat -> (bacAt pts j <= bacAt pts k)%Q) ->
  (forall j, (j < k)%nat -> (bacAt pts j < bacAt pts k)%Q) ->
  let k' := fold_left scan (seq a m) k in
  (k' < a + m)%nat /\
  (forall j, (j < a + m)%nat -> (bacAt pts j <= bacAt pts k')%Q) /\
  (forall j, (j < k')%nat -> (bacAt pts j < bacAt pts k')%Q).
Proof.
  induction m as [| m IH]; intros a k Hk Hmax Hfirst.
  - cbn [seq fold_left]. rewrite Nat.add_0_r. auto.
  - cbn [seq fold_left].
    replace (a + S m)%nat with (S a + m)%nat by lia.
    destruct (Qlt_bool (bacAt pts k) (bacAt pts a)) eqn:E.
    + apply Qlt_bool_iff in E. apply IH; [lia | |].
      * intros j Hj. destruct (Nat.eq_dec j a) as [-> | Hne]; [lra |].
        assert (H := Hmax j ltac:(lia)). lra.
      * intros j Hj. assert (H := Hmax j Hj). lra.
    + apply Qlt_bool_false in E. apply IH; [lia | | exact Hfirst].
      intros j Hj. destruct (Nat.eq_dec j a) as [-> | Hne]; [exact E |].
      apply Hmax. lia.
Qed.

Lemma peakIndexOf_spec :
  (1 <= List.length pts)%nat ->
  let k := peakIndexOf pts in
  (k < List.length pts)%nat /\
  (forall j, (j < List.length pts)%nat -> (bacAt pts j <= bacAt pts k)%Q) /\
  (forall j, (j < k)%nat -> (bacAt pts j < bacAt pts k)%Q).
Proof.
  intro Hlen. unfold peakIndexOf.
  assert (H : (0 < 1)%nat) by lia.
  apply (peakScan_invariant (List.length pts - 1) 1 0) in H.
  - cbv zeta in H.
    replace (1 + (List.length pts - 1))%nat with (List.length pts) in H by lia.
    exact H.
  - intros j Hj. replace j with 0%nat by lia. lra.
  - intros j Hj. lia.
Qed.

End Scans.

Lemma find_all_false {A : Type} (f : A -> bool) (l : list A) :
  (forall x, In x l -> f x = false) -> find f l = None.
Proof.
  induction l as [| x l IH]; intro H; [reflexivity |].
  cbn [find]. rewrite (H x (or_introl eq_refl)). apply IH.
  intros y Hy. apply H. now right.
Qed.

Lemma find_first {A : Type} (f : A -> bool) (l : list A) : forall j p,
  nth_error l j = Some p -> f p = true ->
  (forall j' q, (j' < j)%nat -> nth_error l j' = Some q -> f q = false) ->
  find f l = Some p.
Proof.
  induction l as [| x l IH]; intros j p Hj Hp Hbefore.
  - destruct j; discriminate.
  - destruct j as [| j]; cbn [nth_error find] in *.
    + injection Hj as ->. now rewrite Hp.
    + rewrite (Hbefore 0%nat x ltac:(lia) eq_refl).
      apply (IH j); [exact Hj | exact Hp |].
      intros j' q Hlt Hq. apply (Hbefore (S j') q); [lia | exact Hq].
Qed.

Lemma last_nth_error {A : Type} (l : list A) (d : A) :
  l <> [] -> nth_error l (List.length l - 1) = Some (last l d).
Proof.
  induction l as [| x l IH]; intro H; [congruence |].
  destruct l as [| y l]; [reflexivity |].
  change (last (x :: y :: l) d) with (last (y :: l) d).
  rewrite <- IH by discriminate.
  replace (List.length (x :: y :: l) - 1)%nat
    with (S (List.length (y :: l) - 1)) by (cbn [List.length]; lia).
  reflexivity.
Qed.

Lemma soberTimeInfo_nonempty (pts : list DataPoint) p0 rest :
  pts = p0 :: rest ->
  soberTimeInfo pts =
    let peakIndex := peakIndexOf pts in
    let peakBAC := bacAt pts peakIndex in
    if Qlt_bool peakBAC 0.05%Q
    then Some (SoberInfo.mk SoberInfo.under peakBAC None None None)
    else
      match firstAtOrBelowLimit pts peakIndex with
      | Some p =>
          Some (SoberInfo.mk SoberInfo.over peakBAC
                  (Some (time p)) (Some (label p)) None)
      | None =>
          let lastP := last pts p0 in
          Some (SoberInfo.mk SoberInfo.over peakBAC
                  (Some (time lastP)) (Some (label lastP)) (Some true))
      end.
Proof. intros ->. reflexivity. Qed.

Lemma two_points_nonempty (pts : list DataPoint) :
  (2 <= List.length pts)%nat -> exists p0 rest, pts = p0 :: rest.
Proof. destruct pts as [| p0 rest]; [simpl; lia | eauto]. Qed.

(** * The claims *)

(** C4.  When every event has non-negative [standardDrinks], every sample of
    the series has [bac >= 0]: each [bac] is [toBAC] of a running net that is
    itself non-negative (the net starts at zero, absorbs non-negative amounts
    and is reset to zero when elimination would take it below).  The run
    exists for every fuel from the step budget on.  Neither the sign of the
    burn rates nor the weight matters: the divisor [w * r] is positive for
    every weight. *)
Theorem bac_never_negative (toLocaleTimeString : Z -> string)
    (firstHourBurn subsequentHourBurn weight : Q) (gender : Gender)
    (drinks : list Drink) (fuel : nat) :
  nonNegativeDrinks drinks -> (288 <= fuel)%nat ->
  exists pts batches,
    simulate toLocaleTimeString firstHourBurn subsequentHourBurn weight gender
      fuel drinks = Some (pts, batches) /\
    Forall (fun p => (0 <= bac p)%Q /\
                     exists net, (0 <= net)%Q /\ bac p = toBAC weight gender net)
           pts.
Proof.
  intros Hnn Hfuel.
  destruct drinks as [| d0 l].
  - exists [], []. split; [reflexivity | constructor].
  - destruct (simulate_result toLocaleTimeString firstHourBurn subsequentHourBurn
                weight gender (d0 :: l)) as (n & newPts & Hrun & _ & _ & _ & _ & Hbac);
      [discriminate |].
    eexists _, _. split; [apply Hrun, Hfuel |].
    assert (H0 : (0 <= absorb 0 (initialDrinks (sortDrinks (d0 :: l))
                                   (firstDrinkTime (d0 :: l))))%Q).
    { apply absorb_nonneg; [lra |].
      now apply nonNegative_initial, nonNegative_sort. }
    constructor.
    + cbn [bac]. split; [now apply toBAC_nonneg | eauto].
    + specialize (Hbac Hnn). rewrite Forall_forall in *.
      intros p Hp. destruct (Hbac p Hp) as (net & Hnet & Heq).
      split; [rewrite Heq; now apply toBAC_nonneg | eauto].
Qed.

Lemma bac_never_negative_witness :
  exists pts batches,
    simulate noLabel 2 1 80 male 288 [beer] = Some (pts, batches) /\
    Forall (fun p => (0 <= bac p)%Q /\
                     exists net, (0 <= net)%Q /\ bac p = toBAC 80 male net)
           pts.
Proof.
  apply (bac_never_negative noLabel 2 1 80 male [beer] 288).
  - repeat constructor. discriminate.
  - lia.
Defined.

(** C5.  On a non-empty list the loop executes [n <= 288] bodies
    ([maxSteps = (24 * 60) / 5 = 288]): the result is reached with any fuel
    from 288 on, the series has [n + 1 <= 289] samples, the sample of index
    [i] lies exactly [i] steps of [stepMs = 10 * 60 * 1000] ms after the
    first drink, and so no sample is later than 48 hours after it. *)
Theorem simulation_bounded (toLocaleTimeString : Z -> string)
    (firstHourBurn subsequentHourBurn weight : Q) (gender : Gender)
    (drinks : list Drink) :
  drinks <> [] ->
  exists pts batches iterations,
    (forall fuel, (Z.to_nat maxSteps <= fuel)%nat ->
       simulate toLocaleTimeString firstHourBurn subsequentHourBurn weight gender
         fuel drinks = Some (pts, batches)) /\
    List.length batches = S iterations /\
    Z.of_nat iterations <= maxSteps /\ maxSteps = 288 /\
    List.length pts = S iterations /\
    (List.length pts <= 289)%nat /\
    stepMs = 10 * 60 * 1000 /\
    (forall i p, nth_error pts i = Some p ->
       time p = firstDrinkTime drinks + Z.of_nat i * stepMs /\
       time p <= firstDrinkTime drinks + 48 * 60 * 60 * 1000).
Proof.
  intro Hne.
  destruct (simulate_result toLocaleTimeString firstHourBurn subsequentHourBurn
              weight gender drinks Hne)
    as (n & newPts & Hrun & Hn & Hlen & Htime & _ & _).
  assert (Hb : forall t, List.length (batchesFrom (sortDrinks drinks) t n) = n).
  { clear. induction n; intro t; simpl; [reflexivity | now rewrite IHn]. }
  eexists _, _, n. split; [exact Hrun |].
  cbn [List.length]. rewrite Hb, Hlen.
  split; [reflexivity |]. split; [constants; lia |]. split; [reflexivity |].
  split; [reflexivity |]. split; [lia |]. split; [reflexivity |].
  intros i p Hp. split; [now apply Htime |].
  assert (Hi : (i < S n)%nat).
  { rewrite <- Hlen.
    assert (Hs : nth_error
                   (mkPoint (firstDrinkTime drinks)
                      (toBAC weight gender
                         (absorb 0 (initialDrinks (sortDrinks drinks)
                                      (firstDrinkTime drinks))))
                      (toLocaleTimeString (firstDrinkTime drinks)) :: newPts) i
                 <> None) by congruence.
    apply nth_error_Some in Hs. exact Hs. }
  rewrite (Htime i p Hp). constants. lia.
Qed.

Lemma simulation_bounded_witness :
  exists pts batches iterations,
    (forall fuel, (Z.to_nat maxSteps <= fuel)%nat ->
       simulate noLabel 2 1 80 male fuel [beer] = Some (pts, batches)) /\
    List.length batches = S iterations /\
    Z.of_nat iterations <= maxSteps /\ maxSteps = 288 /\
    List.length pts = S iterations /\
    (List.length pts <= 289)%nat /\
    stepMs = 10 * 60 * 1000 /\
    (forall i p, nth_error pts i = Some p ->
       time p = firstDrinkTime [beer] + Z.of_nat i * stepMs /\
       time p <= firstDrinkTime [beer] + 48 * 60 * 60 * 1000).
Proof.
  apply (simulation_bounded noLabel 2 1 80 male [beer]). discriminate.
Defined.

(** C6.  On a non-empty list the series is strictly increasing in time:
    every sample is earlier than the next one; and the first sample is taken
    at the earliest timestamp of the list. *)
Theorem series_strictly_increasing (toLocaleTimeString : Z -> string)
    (firstHourBurn subsequentHourBurn weight : Q) (gender : Gender)
    (drinks : list Drink) :
  drinks <> [] ->
  exists p0 rest batches,
    (forall fuel, (288 <= fuel)%nat ->
       simulate toLocaleTimeString firstHourBurn subsequentHourBurn weight gender
         fuel drinks = Some (p0 :: rest, batches)) /\
    (forall i p q,
       nth_error (p0 :: rest) i = Some p ->
       nth_error (p0 :: rest) (S i) = Some q ->
       time p < time q) /\
    (forall d, In d drinks -> time p0 <= timestamp d) /\
    (exists d, In d drinks /\ timestamp d = time p0).
Proof.
  intro Hne.
  destruct (simulate_result toLocaleTimeString firstHourBurn subsequentHourBurn
              weight gender drinks Hne)
    as (n & newPts & Hrun & _ & _ & Htime & _ & _).
  eexists _, _, _. split; [exact Hrun |]. cbn [time].
  split; [| split].
  - intros i p q Hp Hq.
    rewrite (Htime _ _ Hp), (Htime _ _ Hq). constants. lia.
  - intros d Hd. now apply firstDrinkTime_least.
  - now apply firstDrinkTime_attained.
Qed.

Lemma series_strictly_increasing_witness :
  exists p0 rest batches,
    (forall fuel, (288 <= fuel)%nat ->
       simulate noLabel 2 1 80 male fuel [beer] = Some (p0 :: rest, batches)) /\
    (forall i p q,
       nth_error (p0 :: rest) i = Some p ->
       nth_error (p0 :: rest) (S i) = Some q ->
       time p < time q) /\
    (forall d, In d [beer] -> time p0 <= timestamp d) /\
    (exists d, In d [beer] /\ timestamp d = time p0).
Proof.
  apply (series_strictly_increasing noLabel 2 1 80 male [beer]). discriminate.
Defined.

(** C7.  For a single drink [d] (which is then the session start) and a
    weight [w >= 1], the first sample is taken at the drink's timestamp and
    its [bac] is [standardDrinks d / (w * r)], as rationals. *)
Theorem first_point_single_drink (toLocaleTimeString : Z -> string)
    (firstHourBurn subsequentHourBurn w : Q) (gender : Gender) (d : Drink) :
  (1 <= w)%Q ->
  exists p0 rest batches,
    (forall fuel, (288 <= fuel)%nat ->
       simulate toLocaleTimeString firstHourBurn subsequentHourBurn w gender
         fuel [d] = Some (p0 :: rest, batches)) /\
    time p0 = timestamp d /\
    (bac p0 == standardDrinks d / (w * r gender))%Q.
Proof.
  intro Hw.
  destruct (simulate_result toLocaleTimeString firstHourBurn subsequentHourBurn
              w gender [d]) as (n & newPts & Hrun & _); [discriminate |].
  eexists _, _, _. split; [exact Hrun |]. cbn [time bac].
  split; [reflexivity |].
  change (sortDrinks [d]) with [d]. change (firstDrinkTime [d]) with (timestamp d).
  unfold initialDrinks. cbn [filter]. rewrite Z.sub_diag. cbn [Z.abs Z.ltb Z.compare].
  cbn [absorb fold_left]. unfold toBAC, effectiveWeight.
  assert (E : Qlt_bool 0 w = true) by (apply Qlt_bool_iff; lra).
  rewrite E. now rewrite Qplus_0_l.
Qed.

Lemma first_point_single_drink_witness :
  exists p0 rest batches,
    (forall fuel, (288 <= fuel)%nat ->
       simulate noLabel 2 1 70 male fuel [sampleDrink "whisky" 10 0] =
       Some (p0 :: rest, batches)) /\
    time p0 = timestamp (sampleDrink "whisky" 10 0) /\
    (bac p0 == standardDrinks (sampleDrink "whisky" 10 0) / (70 * r male))%Q.
Proof.
  apply (first_point_single_drink noLabel 2 1 70 male (sampleDrink "whisky" 10 0)).
  discriminate.
Defined.

(** C10.  An empty list gives an empty series, for which [soberTimeInfo] is
    [null] and nothing is rendered.  A non-empty list gives at least two
    samples (the first sample and the one appended by the first body, which
    is appended before the early-stop test), so the chart is rendered and
    [soberTimeInfo] has a result. *)
Theorem at_least_two_points (toLocaleTimeString : Z -> string)
    (firstHourBurn subsequentHourBurn weight : Q) (gender : Gender) :
  (forall fuel,
     simulate toLocaleTimeString firstHourBurn subsequentHourBurn weight gender
       fuel [] = Some ([], [])) /\
  soberTimeInfo [] = None /\ rendersChart [] = false /\
  forall drinks, drinks <> [] ->
    exists pts batches,
      (forall fuel, (288 <= fuel)%nat ->
         simulate toLocaleTimeString firstHourBurn subsequentHourBurn weight gender
           fuel drinks = Some (pts, batches)) /\
      (2 <= List.length pts)%nat /\
      rendersChart pts = true /\
      soberTimeInfo pts <> None.
Proof.
  split; [reflexivity |]. split; [reflexivity |]. split; [reflexivity |].
  intros drinks Hne.
  destruct (simulate_result toLocaleTimeString firstHourBurn subsequentHourBurn
              weight gender drinks Hne)
    as (n & newPts & Hrun & Hn & Hlen & _).
  eexists _, _. split; [exact Hrun |].
  destruct newPts as [| p1 newPts]; [simpl in Hlen; lia |].
  split; [cbn [List.length]; lia |]. split; [reflexivity |].
  unfold soberTimeInfo.
  destruct (Qlt_bool _ _); [discriminate |].
  destruct (firstAtOrBelowLimit _ _); discriminate.
Qed.

Lemma at_least_two_points_witness :
  exists pts batches,
    (forall fuel, (288 <= fuel)%nat ->
       simulate noLabel 2 1 80 male fuel [beer] = Some (pts, batches)) /\
    (2 <= List.length pts)%nat /\
    rendersChart pts = true /\
    soberTimeInfo pts <> None.
Proof.
  apply (at_least_two_points noLabel 2 1 80 male). discriminate.
Defined.

(** C1, as the code has it.  With distinct identifiers, on a non-empty list,
    the series shows, sample by sample, the running net to which the
    standard drinks of every event of the initial batch and of every step's
    batch have been added (before that step's elimination).  In these
    batches an event at the first drink's timestamp occurs exactly once, in
    the initial batch, whose total is its standard drinks plus those of the
    other events of the batch; an event at least one second after the first
    drink and at most 288 steps after it occurs exactly once, in the batch of
    the step whose interval [(currentTime, nextTime]] contains its timestamp,
    whose total is its standard drinks plus those of the other events of that
    batch, and not in the initial batch; an event later than 288 steps after
    the first drink occurs in no batch.  (Events less than a second after the
    first drink, but not at its timestamp, are outside this statement.) *)
Theorem absorbed_once_within_horizon (toLocaleTimeString : Z -> string)
    (firstHourBurn subsequentHourBurn weight : Q) (gender : Gender)
    (drinks : list Drink) :
  drinks <> [] -> NoDup (map id drinks) ->
  exists pts initial stepBatches,
    (forall fuel, (288 <= fuel)%nat ->
       simulate toLocaleTimeString firstHourBurn subsequentHourBurn weight gender
         fuel drinks = Some (pts, initial :: stepBatches)) /\
    showsNets weight gender pts
      (netTrace firstHourBurn subsequentHourBurn initial stepBatches) /\
    forall d, In d drinks ->
      let start := firstDrinkTime drinks in
      (timestamp d = start ->
         In d initial /\
         (batchTotal initial
          == standardDrinks d + batchTotal (otherDrinks (id d) initial))%Q /\
         timesAbsorbed (id d) (initial :: stepBatches) = 1%nat) /\
      (start + 1000 <= timestamp d <= start + maxSteps * stepMs ->
         ~ In d initial /\
         timesAbsorbed (id d) (initial :: stepBatches) = 1%nat /\
         exists k batch,
           nth_error stepBatches k = Some batch /\ In d batch /\
           (batchTotal batch
            == standardDrinks d + batchTotal (otherDrinks (id d) batch))%Q /\
           start + Z.of_nat k * stepMs < timestamp d
             <= start + (Z.of_nat k + 1) * stepMs) /\
      (start + maxSteps * stepMs < timestamp d ->
         timesAbsorbed (id d) (initial :: stepBatches) = 0%nat).
Proof.
  intros Hne Hnd.
  destruct (simulate_result toLocaleTimeString firstHourBurn subsequentHourBurn
              weight gender drinks Hne)
    as (n & newPts & Hrun & Hn & _ & _ & Hend & _).
  eexists _, _, _. split; [exact Hrun |].
  split.
  { apply (simulate_nets toLocaleTimeString firstHourBurn subsequentHourBurn
             weight gender drinks 288); [exact Hne | apply le_n |].
    apply Hrun, le_n. }
  intros d Hd start.
  assert (Hnds : NoDup (map id (sortDrinks drinks))).
  { eapply Permutation_NoDup; [| exact Hnd].
    apply Permutation_map, Permutation_sym, sortDrinks_perm. }
  assert (Hds : In d (sortDrinks drinks)) by now apply sortDrinks_In.
  assert (Hleast : start <= timestamp d) by now apply firstDrinkTime_least.
  fold start in Hend |- *.
  set (initial := initialDrinks (sortDrinks drinks) start).
  assert (Hocc : occurrences (id d) initial =
                 if Z.abs (timestamp d - start) <? 1000 then 1%nat else 0%nat)
    by apply (occurrences_filter
                (fun e => Z.abs (timestamp e - start) <? 1000) _ _ Hnds Hds).
  assert (Hini : In d initial <-> (Z.abs (timestamp d - start) <? 1000) = true).
  { subst initial. unfold initialDrinks. rewrite filter_In. tauto. }
  assert (Hsplit : In d initial ->
                   (batchTotal initial
                    == standardDrinks d + batchTotal (otherDrinks (id d) initial))%Q).
  { apply batchTotal_split. subst initial. unfold initialDrinks.
    now apply NoDup_ids_filter. }
  rewrite timesAbsorbed_cons, (timesAbsorbed_steps _ _ Hnds Hds), Hocc.
  assert (Hreach : timestamp d <= start + maxSteps * stepMs ->
                   timestamp d <= start + Z.of_nat n * stepMs).
  { intro Hle. destruct Hend as [-> | Hend].
    - constants. lia.
    - specialize (Hend d Hd). constants. lia. }
  constants.
  split; [| split].
  - intros E.
    assert (E0 : (Z.abs (timestamp d - start) <? 1000) = true)
      by (rewrite E, Z.sub_diag; reflexivity).
    assert (E1 : (start <? timestamp d) = false)
      by (rewrite E; apply Z.ltb_irrefl).
    rewrite E0, E1. cbn [andb].
    split; [now apply Hini |]. split; [apply Hsplit; now apply Hini | reflexivity].
  - intros [Hlo Hhi]. specialize (Hreach Hhi).
    assert (E0 : (Z.abs (timestamp d - start) <? 1000) = false)
      by (apply Z.ltb_ge; lia).
    rewrite E0.
    assert (E1 : (start <? timestamp d) = true) by (apply Z.ltb_lt; lia).
    assert (E2 : (timestamp d <=? start + Z.of_nat n * 600000) = true)
      by (apply Z.leb_le; lia).
    rewrite E1, E2. cbn [andb Nat.add].
    split; [rewrite Hini, E0; discriminate |]. split; [reflexivity |].
    set (q := (timestamp d - start - 1) / 600000).
    assert (Hq : 600000 * q <= timestamp d - start - 1 < 600000 * (q + 1)).
    { subst q.
      pose proof (Z.div_mod (timestamp d - start - 1) 600000 ltac:(lia)).
      pose proof (Z.mod_pos_bound (timestamp d - start - 1) 600000 ltac:(lia)).
      lia. }
    assert (Hq0 : 0 <= q) by lia.
    exists (Z.to_nat q). eexists.
    split; [apply batchesFrom_nth; lia |]. constants.
    rewrite Z2Nat.id by lia.
    assert (Hbatch : In d (drinksInInterval (sortDrinks drinks)
                             (start + q * 600000) (start + (q + 1) * 600000))).
    { unfold drinksInInterval. apply filter_In. split; [exact Hds |].
      apply andb_true_iff. split; [apply Z.ltb_lt | apply Z.leb_le]; lia. }
    split; [exact Hbatch |]. split; [| lia].
    apply batchTotal_split; [| exact Hbatch].
    unfold drinksInInterval. now apply NoDup_ids_filter.
  - intros Hlate.
    assert (E0 : (Z.abs (timestamp d - start) <? 1000) = false)
      by (apply Z.ltb_ge; lia).
    assert (E2 : (timestamp d <=? start + Z.of_nat n * 600000) = false)
      by (apply Z.leb_gt; lia).
    rewrite E0, E2, andb_false_r. reflexivity.
Qed.

Lemma absorbed_once_within_horizon_witness :
  exists pts initial stepBatches,
    (forall fuel, (288 <= fuel)%nat ->
       simulate noLabel 2 1 80 male fuel eveningDrinks =
       Some (pts, initial :: stepBatches)) /\
    showsNets 80 male pts (netTrace 2 1 initial stepBatches) /\
    forall d, In d eveningDrinks ->
      let start := firstDrinkTime eveningDrinks in
      (timestamp d = start ->
         In d initial /\
         (batchTotal initial
          == standardDrinks d + batchTotal (otherDrinks (id d) initial))%Q /\
         timesAbsorbed (id d) (initial :: stepBatches) = 1%nat) /\
      (start + 1000 <= timestamp d <= start + maxSteps * stepMs ->
         ~ In d initial /\
         timesAbsorbed (id d) (initial :: stepBatches) = 1%nat /\
         exists k batch,
           nth_error stepBatches k = Some batch /\ In d batch /\
           (batchTotal batch
            == standardDrinks d + batchTotal (otherDrinks (id d) batch))%Q /\
           start + Z.of_nat k * stepMs < timestamp d
             <= start + (Z.of_nat k + 1) * stepMs) /\
      (start + maxSteps * stepMs < timestamp d ->
         timesAbsorbed (id d) (initial :: stepBatches) = 0%nat).
Proof.
  apply (absorbed_once_within_horizon noLabel 2 1 80 male eveningDrinks).
  - discriminate.
  - vm_compute. repeat constructor; simpl; intuition discriminate.
Defined.

(** C1 as stated fails beyond the horizon: a drink later than 288 steps
    after the first one is in no batch, and its standard drinks never reach
    the net.  In the run below the first sample shows the net of the first
    drink alone, and from the fourth sample to the 289th and last the net is
    zero. *)
Lemma absorbed_exactly_once_fails :
  exists pts batches,
    simulate noLabel 2 1 80 male 288 lateDrinks = Some (pts, batches) /\
    timesAbsorbed "late" batches = 0%nat /\
    ~ absorbedExactlyOnce lateDrinks batches /\
    List.length pts = 289%nat /\
    (exists p0, nth_error pts 0 = Some p0 /\ (bac p0 == toBAC 80 male 1)%Q) /\
    Forall (fun p => (bac p == toBAC 80 male 0)%Q) (skipn 3 pts).
Proof.
  eexists _, _. split; [vm_compute; reflexivity |].
  split; [vm_compute; reflexivity |].
  split.
  { intro H.
    specialize (H (sampleDrink "late" 1 (288 * stepMs + 1))
                  (or_intror (or_introl eq_refl))).
    vm_compute in H. discriminate. }
  split; [vm_compute; reflexivity |].
  split; [eexists; split; [reflexivity | vm_compute; reflexivity] |].
  apply Forall_forall. intros p Hp.
  match type of Hp with
  | In p ?l =>
      assert (Hall : forallb (fun p => Qeq_bool (bac p) (toBAC 80 male 0)) l = true)
        by (vm_compute; reflexivity);
      rewrite forallb_forall in Hall; apply Qeq_bool_iff, Hall, Hp
  end.
Qed.

(** The same statement also fails inside the first second: a drink half a
    second after the first one is in the initial batch and again in the
    batch of the first step, so its standard drinks are added twice.  The two
    drinks hold one standard drink each, and yet the second sample shows a
    net of three standard drinks less the elimination of one step. *)
Lemma close_drink_absorbed_twice :
  exists pts initial first_step stepBatches,
    simulate noLabel 2 1 80 male 288 closeDrinks =
      Some (pts, initial :: first_step :: stepBatches) /\
    In (sampleDrink "second" 1 500) initial /\
    In (sampleDrink "second" 1 500) first_step /\
    timesAbsorbed "second" (initial :: first_step :: stepBatches) = 2%nat /\
    (batchTotal closeDrinks == 2)%Q /\
    exists p1,
      nth_error pts 1 = Some p1 /\
      (bac p1 == toBAC 80 male (3 - stepBurnFirstHour 2))%Q.
Proof.
  eexists _, _, _, _. split; [vm_compute; reflexivity |].
  split; [right; left; reflexivity |].
  split; [left; reflexivity |].
  split; [vm_compute; reflexivity |].
  split; [vm_compute; reflexivity |].
  eexists. split; [reflexivity | vm_compute; reflexivity].
Qed.

(** C2.  On a series of at least two samples the peak is the first index
    attaining the maximum [bac]: no sample exceeds it and every earlier
    sample is strictly below it.  When the peak is below 0.05 the result is
    [under], with no time.  Otherwise, when [p] is the first sample at or
    after the peak index with [bac <= 0.05], the result is [over] with the
    time and label of [p], and it is not projected. *)
Theorem analytics_peak_and_crossing (pts : list DataPoint) :
  (2 <= List.length pts)%nat ->
  let k := peakIndexOf pts in
  let peakBAC := bacAt pts k in
  (k < List.length pts)%nat /\
  (forall j, (j < List.length pts)%nat -> (bacAt pts j <= peakBAC)%Q) /\
  (forall j, (j < k)%nat -> (bacAt pts j < peakBAC)%Q) /\
  ((peakBAC < 0.05)%Q ->
   soberTimeInfo pts =
     Some (SoberInfo.mk SoberInfo.under peakBAC None None None)) /\
  ((0.05 <= peakBAC)%Q ->
   forall j p,
     (k <= j)%nat -> nth_error pts j = Some p -> (bac p <= 0.05)%Q ->
     (forall j' q, (k <= j' < j)%nat -> nth_error pts j' = Some q ->
                   (0.05 < bac q)%Q) ->
     exists info,
       soberTimeInfo pts = Some info /\
       info = SoberInfo.mk SoberInfo.over peakBAC
                (Some (time p)) (Some (label p)) None /\
       SoberInfo.isProjected info = false).
Proof.
  intros Hlen k peakBAC.
  destruct (peakIndexOf_spec pts ltac:(lia)) as (Hk & Hmax & Hfirst).
  fold k in Hk, Hmax, Hfirst. fold peakBAC in Hmax, Hfirst.
  split; [exact Hk |]. split; [exact Hmax |]. split; [exact Hfirst |].
  destruct (two_points_nonempty pts Hlen) as (p0 & rest & Epts).
  rewrite (soberTimeInfo_nonempty pts p0 rest Epts). cbv zeta.
  fold k. fold peakBAC.
  split.
  - intro Hlow. apply Qlt_bool_iff in Hlow. now rewrite Hlow.
  - intros Hhigh j p Hj Hp Hbelow Hbefore.
    apply Qlt_bool_false in Hhigh. rewrite Hhigh.
    assert (Hfind : firstAtOrBelowLimit pts k = Some p).
    { unfold firstAtOrBelowLimit.
      apply (find_first _ _ (j - k)%nat).
      - rewrite nth_error_skipn. now replace (k + (j - k))%nat with j by lia.
      - now apply Qle_bool_iff.
      - intros j' q Hlt Hq. rewrite nth_error_skipn in Hq.
        apply Qle_bool_false. apply (Hbefore (k + j')%nat); [lia | exact Hq]. }
    rewrite Hfind. eexists. split; [reflexivity |]. split; reflexivity.
Qed.

Lemma analytics_peak_and_crossing_witness :
  (peakIndexOf crossingSeries < List.length crossingSeries)%nat /\
  (forall j, (j < List.length crossingSeries)%nat ->
     (bacAt crossingSeries j <= bacAt crossingSeries (peakIndexOf crossingSeries))%Q) /\
  (forall j, (j < peakIndexOf crossingSeries)%nat ->
     (bacAt crossingSeries j < bacAt crossingSeries (peakIndexOf crossingSeries))%Q) /\
  ((bacAt crossingSeries (peakIndexOf crossingSeries) < 0.05)%Q ->
   soberTimeInfo crossingSeries =
     Some (SoberInfo.mk SoberInfo.under
             (bacAt crossingSeries (peakIndexOf crossingSeries)) None None None)) /\
  ((0.05 <= bacAt crossingSeries (peakIndexOf crossingSeries))%Q ->
   forall j p,
     (peakIndexOf crossingSeries <= j)%nat ->
     nth_error crossingSeries j = Some p -> (bac p <= 0.05)%Q ->
     (forall j' q, (peakIndexOf crossingSeries <= j' < j)%nat ->
                   nth_error crossingSeries j' = Some q -> (0.05 < bac q)%Q) ->
     exists info,
       soberTimeInfo crossingSeries = Some info /\
       info = SoberInfo.mk SoberInfo.over
                (bacAt crossingSeries (peakIndexOf crossingSeries))
                (Some (time p)) (Some (label p)) None /\
       SoberInfo.isProjected info = false).
Proof.
  apply (analytics_peak_and_crossing crossingSeries).
  simpl. lia.
Defined.

(** C8.  On a series of at least two samples whose peak is at least 0.05
    and in which no sample from the peak index to the end has [bac <= 0.05],
    the result is [over] with the time and label of the last sample and
    [projected: true]. *)
Theorem projection_fallback (pts : list DataPoint) :
  (2 <= List.length pts)%nat ->
  let k := peakIndexOf pts in
  let peakBAC := bacAt pts k in
  (0.05 <= peakBAC)%Q ->
  (forall j p, (k <= j)%nat -> nth_error pts j = Some p -> (0.05 < bac p)%Q) ->
  exists lastP info,
    nth_error pts (List.length pts - 1) = Some lastP /\
    soberTimeInfo pts = Some info /\
    info = SoberInfo.mk SoberInfo.over peakBAC
             (Some (time lastP)) (Some (label lastP)) (Some true) /\
    SoberInfo.status info = SoberInfo.over /\
    SoberInfo.time info = Some (time lastP) /\
    SoberInfo.isProjected info = true.
Proof.
  intros Hlen k peakBAC Hhigh Hnone.
  destruct (two_points_nonempty pts Hlen) as (p0 & rest & Epts).
  exists (last pts p0). eexists.
  split; [apply last_nth_error; rewrite Epts; discriminate |].
  rewrite (soberTimeInfo_nonempty pts p0 rest Epts). cbv zeta.
  fold k. fold peakBAC.
  apply Qlt_bool_false in Hhigh. rewrite Hhigh.
  assert (Hfind : firstAtOrBelowLimit pts k = None).
  { unfold firstAtOrBelowLimit. apply find_all_false.
    intros p Hp. apply In_nth_error in Hp. destruct Hp as (i & Hi).
    rewrite nth_error_skipn in Hi.
    apply Qle_bool_false. apply (Hnone (k + i)%nat); [lia | exact Hi]. }
  rewrite Hfind. repeat split; reflexivity.
Qed.

Lemma projection_fallback_witness :
  exists lastP info,
    nth_error risingSeries (List.length risingSeries - 1) = Some lastP /\
    soberTimeInfo risingSeries = Some info /\
    info = SoberInfo.mk SoberInfo.over
             (bacAt risingSeries (peakIndexOf risingSeries))
             (Some (time lastP)) (Some (label lastP)) (Some true) /\
    SoberInfo.status info = SoberInfo.over /\
    SoberInfo.time info = Some (time lastP) /\
    SoberInfo.isProjected info = true.
Proof.
  apply (projection_fallback risingSeries).
  - simpl. lia.
  - vm_compute. discriminate.
  - intros j p Hj Hp.
    change (peakIndexOf risingSeries) with 1%nat in Hj.
    destruct j as [| [| [| [| j]]]];
      [lia | | | | destruct j; discriminate];
      simpl in Hp; injection Hp as <-; reflexivity.
Defined.

(** C9.  [updateDrinkTime] keeps the length and the order of the list.  At
    every position the new event has the identifier, name, volume, strength
    and standard drinks of the old one; when the identifier matches, its
    timestamp is the new one, and otherwise the event is the old one,
    unchanged.  [addDrink] sets [standardDrinks] to
    [(volumeMl / 1000) * abv * 0.789] of the event's own volume and strength,
    and an event for which that holds still satisfies it after the update. *)
Theorem updateDrinkTime_frame (i : string) (newTimestamp : Z)
    (drinks : list Drink) :
  List.length (updateDrinkTime i newTimestamp drinks) = List.length drinks /\
  (forall n d, nth_error drinks n = Some d ->
     exists d',
       nth_error (updateDrinkTime i newTimestamp drinks) n = Some d' /\
       id d' = id d /\ name d' = name d /\
       volumeMl d' = volumeMl d /\ abv d' = abv d /\
       standardDrinks d' = standardDrinks d /\
       (id d = i -> timestamp d' = newTimestamp) /\
       (id d <> i -> d' = d) /\
       (frozenAtCreation d -> frozenAtCreation d')) /\
  (forall newId now nm v a ts,
     exists created,
       addDrink newId now nm v a ts drinks = created :: drinks /\
       volumeMl created = v /\ abv created = a /\
       standardDrinks created = standardDrinksOf v a /\
       frozenAtCreation created).
Proof.
  split; [apply length_map |]. split.
  - intros n d Hd. unfold updateDrinkTime.
    rewrite nth_error_map, Hd. cbn [option_map].
    eexists. split; [reflexivity |].
    destruct (String.eqb_spec (id d) i) as [E | E]; cbn;
      repeat split; try reflexivity; try tauto; congruence.
  - intros newId now nm v a ts. eexists. split; [reflexivity |].
    cbn. repeat split; reflexivity.
Qed.

Lemma updateDrinkTime_frame_witness :
  exists d',
    nth_error (updateDrinkTime "beer" 1700000600000 [beer]) 0 = Some d' /\
    id d' = id beer /\ name d' = name beer /\
    volumeMl d' = volumeMl beer /\ abv d' = abv beer /\
    standardDrinks d' = standardDrinks beer /\
    (id beer = "beer"%string -> timestamp d' = 1700000600000) /\
    (id beer <> "beer"%string -> d' = beer) /\
    (frozenAtCreation beer -> frozenAtCreation d').
Proof.
  apply (proj1 (proj2 (updateDrinkTime_frame "beer" 1700000600000 [beer])) 0%nat beer).
  reflexivity.
Defined.

(** C3, as the code has it.  The weight used by [toBAC] is the given weight
    when that is positive and 1 otherwise: it is always positive, and at
    least 1 whenever the given weight is.  The divisor [w * r] is therefore
    positive, never zero, and [toBAC] is a true quotient. *)
Theorem divisor_never_zero (weight : Q) (gender : Gender) :
  (0 < effectiveWeight weight)%Q /\
  ((0 < weight)%Q -> effectiveWeight weight = weight) /\
  ((weight <= 0)%Q -> effectiveWeight weight = 1%Q) /\
  ((1 <= weight)%Q -> (1 <= effectiveWeight weight)%Q) /\
  (0 < effectiveWeight weight * r gender)%Q /\
  ~ (effectiveWeight weight * r gender == 0)%Q /\
  (forall netSD,
     (toBAC weight gender netSD * (effectiveWeight weight * r gender) == netSD)%Q).
Proof.
  assert (Hd := divisor_pos weight gender).
  split; [apply effectiveWeight_pos |].
  split; [| split; [| split; [| split; [exact Hd | split]]]].
  - intro H. unfold effectiveWeight. apply Qlt_bool_iff in H. now rewrite H.
  - intro H. unfold effectiveWeight. apply Qlt_bool_false in H. now rewrite H.
  - intro H. unfold effectiveWeight.
    destruct (Qlt_bool 0 weight); [exact H | lra].
  - intro H. rewrite H in Hd. lra.
  - intro netSD. unfold toBAC. field.
    assert (Hw := effectiveWeight_pos weight). assert (Hr := r_pos gender).
    split; intro H; rewrite H in *; lra.
Qed.

Lemma divisor_never_zero_witness :
  (0 < effectiveWeight 0)%Q /\
  ((0 < 0)%Q -> effectiveWeight 0 = 0%Q) /\
  ((0 <= 0)%Q -> effectiveWeight 0 = 1%Q) /\
  ((1 <= 0)%Q -> (1 <= effectiveWeight 0)%Q) /\
  (0 < effectiveWeight 0 * r female)%Q /\
  ~ (effectiveWeight 0 * r female == 0)%Q /\
  (forall netSD,
     (toBAC 0 female netSD * (effectiveWeight 0 * r female) == netSD)%Q).
Proof.
  apply (divisor_never_zero 0 female).
Defined.

(** C3 as stated fails: a weight of half a kilogram is used as it is, below
    the supposed floor of 1. *)
Lemma weight_floor_is_not_one :
  effectiveWeight 0.5 = 0.5%Q /\ ~ (1 <= effectiveWeight 0.5)%Q.
Proof.
  split; [reflexivity |]. vm_compute. intro H. now apply H.
Qed.

(** * Further properties of the code *)

(** ** The drink store *)

Lemma updateDrinkTime_ids (i : string) (t : Z) (drinks : list Drink) :
  map id (updateDrinkTime i t drinks) = map id drinks.
Proof.
  unfold updateDrinkTime. rewrite map_map. apply map_ext.
  intro d. now destruct (String.eqb (id d) i).
Qed.

Lemma removeDrink_ids_incl (i : string) (drinks : list Drink) (j : string) :
  In j (map id (removeDrink i drinks)) -> In j (map id drinks) /\ j <> i.
Proof.
  unfold removeDrink. rewrite !in_map_iff. intros (d & E & Hd).
  apply filter_In in Hd. destruct Hd as [Hd Hne].
  apply negb_true_iff in Hne. apply String.eqb_neq in Hne.
  split; [exists d; tauto | congruence].
Qed.

(** [removeDrink] removes every event with the given identifier and keeps
    every other event; on an identifier that is not in the list it changes
    nothing. *)
Theorem removeDrink_spec (i : string) (drinks : list Drink) :
  (forall d, In d (removeDrink i drinks) <-> In d drinks /\ id d <> i) /\
  ~ In i (map id (removeDrink i drinks)) /\
  (List.length (removeDrink i drinks) <= List.length drinks)%nat /\
  (~ In i (map id drinks) -> removeDrink i drinks = drinks).
Proof.
  split; [| split; [| split]].
  - intro d. unfold removeDrink. rewrite filter_In, negb_true_iff, String.eqb_neq.
    reflexivity.
  - intro H. apply removeDrink_ids_incl in H. tauto.
  - apply filter_length_le.
  - intro H. unfold removeDrink.
    induction drinks as [| d l IH]; [reflexivity |].
    cbn [filter]. destruct (String.eqb_spec (id d) i) as [E | E].
    + exfalso. apply H. left. exact E.
    + cbn [negb]. f_equal. apply IH. intro Hin. apply H. now right.
Qed.

Lemma removeDrink_spec_witness : removeDrink "cider" [beer] = [beer].
Proof.
  apply (proj2 (proj2 (proj2 (removeDrink_spec "cider" [beer])))).
  simpl. intros [H | []]. discriminate.
Defined.

(** Adding a drink under a fresh identifier and removing it again gives back
    the list as it was. *)
Theorem add_then_remove (newId : string) (now : Z) (nm : string) (v a : Q)
    (ts : option Z) (drinks : list Drink) :
  ~ In newId (map id drinks) ->
  removeDrink newId (addDrink newId now nm v a ts drinks) = drinks.
Proof.
  intro H. unfold addDrink, removeDrink. cbn [filter id].
  rewrite String.eqb_refl. cbn [negb].
  apply (proj2 (proj2 (proj2 (removeDrink_spec newId drinks)))). exact H.
Qed.

Lemma add_then_remove_witness :
  removeDrink "cider" (addDrink "cider" 1700000000500 "Cider" 330 4.5 None [beer])
  = [beer].
Proof.
  apply (add_then_remove "cider" 1700000000500 "Cider" 330 4.5 None [beer]).
  simpl. intros [H | []]. discriminate.
Defined.

(** The three operations keep the identifiers of the list distinct, [addDrink]
    provided the new identifier is not in use; [updateDrinkTime] leaves the
    identifiers as they are. *)
Theorem store_keeps_ids_distinct (drinks : list Drink) :
  NoDup (map id drinks) ->
  (forall newId now nm v a ts,
     ~ In newId (map id drinks) ->
     NoDup (map id (addDrink newId now nm v a ts drinks))) /\
  (forall i, NoDup (map id (removeDrink i drinks))) /\
  (forall i t, map id (updateDrinkTime i t drinks) = map id drinks /\
               NoDup (map id (updateDrinkTime i t drinks))).
Proof.
  intro Hnd. split; [| split].
  - intros newId now nm v a ts Hfresh. unfold addDrink. cbn [map id].
    now constructor.
  - intro i. unfold removeDrink.
    induction drinks as [| d l IH]; [constructor |].
    cbn [map] in Hnd. inversion Hnd as [| ? ? Hd Hl]; subst.
    cbn [filter]. destruct (negb (String.eqb (id d) i)); [| now apply IH].
    cbn [map]. constructor; [| now apply IH].
    intro H. apply Hd. now apply (filter_ids _ _ _ H).
  - intros i t. rewrite updateDrinkTime_ids. now split.
Qed.

Lemma store_keeps_ids_distinct_witness :
  NoDup (map id (addDrink "cider" 1700000000500 "Cider" 330 4.5 None [beer])).
Proof.
  apply (proj1 (store_keeps_ids_distinct [beer]
                  ltac:(repeat constructor; simpl; tauto))).
  simpl. intros [H | []]. discriminate.
Defined.

(** [updateDrinkTime] on an identifier that is not in the list changes
    nothing; of two updates of the same identifier the later one wins; and
    updates of different identifiers can be made in either order. *)
Theorem updateDrinkTime_composition (drinks : list Drink) :
  (forall i t, ~ In i (map id drinks) -> updateDrinkTime i t drinks = drinks) /\
  (forall i t1 t2,
     updateDrinkTime i t2 (updateDrinkTime i t1 drinks)
     = updateDrinkTime i t2 drinks) /\
  (forall i j t1 t2, i <> j ->
     updateDrinkTime i t1 (updateDrinkTime j t2 drinks)
     = updateDrinkTime j t2 (updateDrinkTime i t1 drinks)).
Proof.
  split; [| split].
  - intros i t H. unfold updateDrinkTime.
    rewrite <- (map_id drinks) at 2. apply map_ext_in.
    intros d Hd. destruct (String.eqb_spec (id d) i) as [E | E]; [| reflexivity].
    exfalso. apply H. rewrite <- E. now apply in_map.
  - intros i t1 t2. unfold updateDrinkTime. rewrite map_map. apply map_ext.
    intro d. destruct (String.eqb_spec (id d) i) as [E | E].
    + cbn [withTimestamp id]. rewrite E, String.eqb_refl. reflexivity.
    + destruct (String.eqb_spec (id d) i); [contradiction | reflexivity].
  - intros i j t1 t2 Hij. unfold updateDrinkTime. rewrite !map_map.
    apply map_ext. intro d.
    destruct (String.eqb_spec (id d) j) as [Ej | Ej],
             (String.eqb_spec (id d) i) as [Ei | Ei];
      cbn [withTimestamp id];
      try (exfalso; congruence);
      rewrite ?Ej, ?Ei, ?String.eqb_refl;
      repeat match goal with
             | |- context [String.eqb ?x ?y] =>
                 destruct (String.eqb_spec x y); try congruence
             end;
      reflexivity.
Qed.

Lemma updateDrinkTime_composition_witness :
  updateDrinkTime "cider" 0 [beer] = [beer].
Proof.
  apply (proj1 (updateDrinkTime_composition [beer]) "cider"%string 0).
  simpl. intros [H | []]. discriminate.
Defined.

(** ** The session header *)

Lemma total_from (l : list Drink) : forall a,
  (fold_left (fun sum drink => sum + standardDrinks drink) l a
   == a + totalStdDrinks l)%Q.
Proof.
  unfold totalStdDrinks.
  induction l as [| d l IH]; intro a; cbn [fold_left]; [lra |].
  rewrite (IH (a + standardDrinks d)%Q), (IH (0 + standardDrinks d)%Q). lra.
Qed.

Lemma total_cons (d : Drink) (l : list Drink) :
  (totalStdDrinks (d :: l) == standardDrinks d + totalStdDrinks l)%Q.
Proof.
  unfold totalStdDrinks at 1. cbn [fold_left]. rewrite total_from. lra.
Qed.

(** The total shown in the header follows the store: editing a time leaves
    it as it is, adding a drink raises it by the drink's standard drinks,
    and, with distinct identifiers, removing a drink of the list lowers it
    by that drink's standard drinks. *)
Theorem totalStdDrinks_follows_store (drinks : list Drink) :
  (forall i t, totalStdDrinks (updateDrinkTime i t drinks) = totalStdDrinks drinks) /\
  (forall newId now nm v a ts,
     (totalStdDrinks (addDrink newId now nm v a ts drinks)
      == totalStdDrinks drinks + standardDrinksOf v a)%Q) /\
  (NoDup (map id drinks) ->
   forall d, In d drinks ->
     (totalStdDrinks (removeDrink (id d) drinks)
      == totalStdDrinks drinks - standardDrinks d)%Q).
Proof.
  split; [| split].
  - intros i t. unfold totalStdDrinks, updateDrinkTime.
    generalize 0%Q. induction drinks as [| d l IH]; intro a; [reflexivity |].
    cbn [map fold_left]. rewrite IH.
    now destruct (String.eqb (id d) i).
  - intros newId now nm v a ts. unfold addDrink. rewrite total_cons.
    cbn [standardDrinks]. lra.
  - intros Hnd d Hd.
    induction drinks as [| x l IH]; [destruct Hd |].
    cbn [map] in Hnd. inversion Hnd as [| ? ? Hx Hl]; subst.
    destruct Hd as [-> | Hd].
    + unfold removeDrink. cbn [filter]. rewrite String.eqb_refl. cbn [negb].
      fold (removeDrink (id d) l).
      rewrite (proj2 (proj2 (proj2 (removeDrink_spec (id d) l))) Hx), total_cons.
      lra.
    + assert (Hne : id x <> id d).
      { intro E. apply Hx. rewrite E. now apply in_map. }
      unfold removeDrink. cbn [filter].
      destruct (String.eqb_spec (id x) (id d)) as [E | _]; [contradiction |].
      cbn [negb]. fold (removeDrink (id d) l).
      rewrite !total_cons, (IH Hl Hd). lra.
Qed.

Lemma totalStdDrinks_follows_store_witness :
  (totalStdDrinks (removeDrink (id beer) [beer])
   == totalStdDrinks [beer] - standardDrinks beer)%Q.
Proof.
  apply (proj2 (proj2 (totalStdDrinks_follows_store [beer]))).
  - repeat constructor. simpl. tauto.
  - now left.
Defined.

Lemma fold_min_least (l : list Z) : forall a x,
  x = a \/ In x l -> fold_left Z.min l a <= x.
Proof.
  induction l as [| y l IH]; intros a x H; cbn [fold_left].
  - destruct H as [-> | []]. lia.
  - destruct H as [-> | [<- | H]].
    + specialize (IH (Z.min a y) (Z.min a y) (or_introl eq_refl)). lia.
    + specialize (IH (Z.min a y) (Z.min a y) (or_introl eq_refl)). lia.
    + apply IH. now right.
Qed.

Lemma fold_min_attained (l : list Z) : forall a,
  fold_left Z.min l a = a \/ In (fold_left Z.min l a) l.
Proof.
  induction l as [| y l IH]; intro a; cbn [fold_left]; [now left |].
  destruct (IH (Z.min a y)) as [E | H].
  - rewrite E. destruct (Z.min_spec a y) as [[_ ->] | [_ ->]]; [now left |].
    right. now left.
  - right. now right.
Qed.

(** [sessionInfo] is absent on an empty list.  Otherwise its start is the
    earliest timestamp of the list, the same session start as the graph
    uses; its minutes are below 60; hours and minutes together are the
    elapsed time rounded down to the minute; and a start that lies in the
    future counts as no time elapsed. *)
Theorem sessionInfo_spec (currentTime : Z) (drinks : list Drink) :
  sessionInfo currentTime [] = None /\
  (drinks <> [] ->
   exists info,
     sessionInfo currentTime drinks = Some info /\
     SessionInfo.startTime info = firstDrinkTime drinks /\
     0 <= SessionInfo.hours info /\ 0 <= SessionInfo.mins info < 60 /\
     (let elapsed := Z.max 0 (currentTime - firstDrinkTime drinks) in
      let shown :=
        SessionInfo.hours info * 3600000 + SessionInfo.mins info * 60000 in
      shown <= elapsed < shown + 60000) /\
     (currentTime <= firstDrinkTime drinks ->
      SessionInfo.hours info = 0 /\ SessionInfo.mins info = 0)).
Proof.
  split; [reflexivity |]. intro Hne.
  destruct drinks as [| d ds]; [congruence |].
  cbn [sessionInfo].
  set (start := fold_left Z.min (map timestamp ds) (timestamp d)).
  assert (Hstart : start = firstDrinkTime (d :: ds)).
  { apply Z.le_antisymm.
    - destruct (firstDrinkTime_attained (d :: ds) Hne) as (e & He & <-).
      apply fold_min_least. destruct He as [-> | He]; [now left | right].
      now apply in_map.
    - destruct (fold_min_attained (map timestamp ds) (timestamp d)) as [E | H].
      + fold start in E. rewrite E. apply firstDrinkTime_least. now left.
      + fold start in H. apply in_map_iff in H. destruct H as (e & <- & He).
        apply firstDrinkTime_least. now right. }
  eexists. split; [reflexivity |]. cbn [SessionInfo.startTime SessionInfo.hours SessionInfo.mins].
  rewrite <- Hstart. clearbody start.
  change (1000 * 60 * 60) with 3600000. change (1000 * 60) with 60000.
  set (v := Z.max 0 (currentTime - start)).
  assert (Hv : 0 <= v) by (subst v; lia).
  assert (Hmod := Z.mod_pos_bound v 3600000 ltac:(lia)).
  assert (Hdm := Z.div_mod v 3600000 ltac:(lia)).
  assert (Hmod2 := Z.mod_pos_bound (v mod 3600000) 60000 ltac:(lia)).
  assert (Hdm2 := Z.div_mod (v mod 3600000) 60000 ltac:(lia)).
  assert (Hh : 0 <= v / 3600000) by (apply Z.div_pos; lia).
  assert (Hm : 0 <= v mod 3600000 / 60000) by (apply Z.div_pos; lia).
  split; [reflexivity |]. split; [exact Hh |].
  split; [lia |]. split; [cbv zeta; lia |].
  intro Hfuture. assert (E : v = 0) by (subst v; lia).
  rewrite E. split; reflexivity.
Qed.

Lemma sessionInfo_spec_witness :
  exists info,
    sessionInfo 1700005000000 [beer] = Some info /\
    SessionInfo.startTime info = firstDrinkTime [beer] /\
    0 <= SessionInfo.hours info /\ 0 <= SessionInfo.mins info < 60 /\
    (let elapsed := Z.max 0 (1700005000000 - firstDrinkTime [beer]) in
     let shown :=
       SessionInfo.hours info * 3600000 + SessionInfo.mins info * 60000 in
     shown <= elapsed < shown + 60000) /\
    (1700005000000 <= firstDrinkTime [beer] ->
     SessionInfo.hours info = 0 /\ SessionInfo.mins info = 0).
Proof.
  apply (proj2 (sessionInfo_spec 1700005000000 [beer])). discriminate.
Defined.

(** ** The settings *)

Lemma clamp_range (hi x : Q) :
  (0 <= hi)%Q -> (0 <= Qmax 0 (Qmin hi x) <= hi)%Q.
Proof.
  intro H.
  destruct (Q.max_spec 0 (Qmin hi x)) as [[H1 E1] | [H1 E1]]; rewrite E1;
    destruct (Q.min_spec hi x) as [[H2 E2] | [H2 E2]]; rewrite ?E2 in *; lra.
Qed.

Lemma settings_step_in_range (s : Settings.t) (a : Settings.Action) :
  (0 <= Settings.firstHourBurn s <= 4)%Q ->
  (0 <= Settings.subsequentHourBurn s <= 3)%Q ->
  (1 <= Settings.weight s)%Q ->
  (0 <= Settings.firstHourBurn (Settings.step s a) <= 4)%Q /\
  (0 <= Settings.subsequentHourBurn (Settings.step s a) <= 3)%Q /\
  (1 <= Settings.weight (Settings.step s a))%Q.
Proof.
  intros H1 H2 H3.
  destruct a; cbn [Settings.step Settings.handleWeightChange
                   Settings.handleFirstHourBurnChange
                   Settings.handleSubsequentHourBurnChange
                   Settings.firstHourBurn Settings.subsequentHourBurn
                   Settings.weight];
    repeat split; try tauto; try (apply clamp_range; lra);
    try (match goal with
         | |- context [Qmax ?a ?b] =>
             destruct (Q.max_spec a b) as [[? E] | [? E]]; rewrite E; lra
         | |- context [Qmin ?a ?b] =>
             destruct (Q.min_spec a b) as [[? E] | [? E]]; rewrite E; lra
         end).
  change 1%Q with (inject_Z 1). rewrite <- Zle_Qle. lia.
Qed.

(** Whatever the user does in the settings panel, starting from the
    defaults, the first-hour burn rate stays in [[0, 4]], the later burn rate
    in [[0, 3]] and the weight at 1 or more; so the graph never has to
    replace the weight, and both burn rates it receives are non-negative. *)
Theorem settings_stay_in_range (actions : list Settings.Action) :
  let s := Settings.run actions in
  (0 <= Settings.firstHourBurn s <= 4)%Q /\
  (0 <= Settings.subsequentHourBurn s <= 3)%Q /\
  (1 <= Settings.weight s)%Q /\
  effectiveWeight (Settings.weight s) = Settings.weight s.
Proof.
  assert (H : forall s0,
             (0 <= Settings.firstHourBurn s0 <= 4)%Q ->
             (0 <= Settings.subsequentHourBurn s0 <= 3)%Q ->
             (1 <= Settings.weight s0)%Q ->
             let s := fold_left Settings.step actions s0 in
             (0 <= Settings.firstHourBurn s <= 4)%Q /\
             (0 <= Settings.subsequentHourBurn s <= 3)%Q /\
             (1 <= Settings.weight s)%Q).
  { induction actions as [| a l IH]; intros s0 H1 H2 H3; cbn [fold_left].
    - auto.
    - destruct (settings_step_in_range s0 a H1 H2 H3) as (K1 & K2 & K3).
      now apply IH. }
  cbv zeta. unfold Settings.run.
  destruct (H Settings.initial) as (K1 & K2 & K3);
    try (cbn; split; discriminate); try (cbn; discriminate).
  repeat split; try tauto.
  unfold effectiveWeight.
  assert (E : Qlt_bool 0 (Settings.weight (fold_left Settings.step actions
                                             Settings.initial)) = true)
    by (apply Qlt_bool_iff; lra).
  now rewrite E.
Qed.

(** ** The two ways of adding drinks *)

(** The calculator stores what it previews: the drink that [handleAdd] puts
    at the head of the list has the previewed [stdDrinks], the calculator's
    volume and strength, and the current clock reading as its timestamp.
    Clearing the volume or the strength field brings the preview to zero,
    and a text that is neither a number nor empty leaves the inputs alone. *)
Theorem calculator_stores_preview (s : ManualCalculator.t) :
  (forall generatedName newId now prevDrinks,
     exists created,
       ManualCalculator.handleAdd generatedName newId now s prevDrinks
         = created :: prevDrinks /\
       standardDrinks created = ManualCalculator.stdDrinks s /\
       volumeMl created = ManualCalculator.volume s /\
       abv created = ManualCalculator.abv s /\
       timestamp created = now /\ frozenAtCreation created) /\
  (ManualCalculator.stdDrinks
     (ManualCalculator.handleVolumeChange None true s) == 0)%Q /\
  (ManualCalculator.stdDrinks
     (ManualCalculator.handleAbvChange None true s) == 0)%Q /\
  ManualCalculator.handleVolumeChange None false s = s /\
  ManualCalculator.handleAbvChange None false s = s.
Proof.
  split; [| split; [| split; [| split]]]; try reflexivity.
  - intros generatedName newId now prevDrinks. eexists.
    split; [reflexivity |]. cbn. repeat split; reflexivity.
  - unfold ManualCalculator.stdDrinks. cbn. field.
Qed.

Lemma addParsedDrinks_rev (parsed : list ParsedDrink) : forall prevDrinks,
  addParsedDrinks parsed prevDrinks
  = rev (map drinkOfParsed parsed) ++ prevDrinks.
Proof.
  unfold addParsedDrinks.
  induction parsed as [| d l IH]; intro prevDrinks; [reflexivity |].
  cbn [fold_left map rev]. rewrite IH, <- app_assoc. reflexivity.
Qed.

(** When the free-text input yields no drink, the store is left as it is and
    a message is shown.  Otherwise every drink is added, the last one
    parsed first in the list, ahead of the drinks already there; each has
    the standard drinks of its own volume and strength, and the header total
    rises by their sum. *)
Theorem handleParsed_adds_all (parsed : list ParsedDrink)
    (prevDrinks : list Drink) :
  (parsed = [] ->
   fst (handleParsed parsed prevDrinks) = prevDrinks /\
   snd (handleParsed parsed prevDrinks) <> None) /\
  (parsed <> [] ->
   fst (handleParsed parsed prevDrinks)
     = rev (map drinkOfParsed parsed) ++ prevDrinks /\
   snd (handleParsed parsed prevDrinks) = None) /\
  Forall frozenAtCreation (map drinkOfParsed parsed) /\
  (totalStdDrinks (addParsedDrinks parsed prevDrinks)
   == totalStdDrinks prevDrinks + totalStdDrinks (map drinkOfParsed parsed))%Q.
Proof.
  split; [| split; [| split]].
  - intros ->. split; [reflexivity | discriminate].
  - intro Hne. destruct parsed as [| d l]; [congruence |].
    cbn [handleParsed fst snd]. split; [apply addParsedDrinks_rev | reflexivity].
  - apply Forall_forall. intros d Hd. apply in_map_iff in Hd.
    destruct Hd as (e & <- & _). unfold frozenAtCreation. cbn. reflexivity.
  - revert prevDrinks. induction parsed as [| d l IH]; intro prevDrinks.
    + change (addParsedDrinks [] prevDrinks) with prevDrinks.
      change (totalStdDrinks (map drinkOfParsed [])) with 0%Q. lra.
    + change (addParsedDrinks (d :: l) prevDrinks)
        with (addParsedDrinks l (drinkOfParsed d :: prevDrinks)).
      cbn [map]. rewrite IH, !total_cons. lra.
Qed.

Lemma handleParsed_adds_all_witness :
  fst (handleParsed parsedRound [beer])
    = rev (map drinkOfParsed parsedRound) ++ [beer] /\
  snd (handleParsed parsedRound [beer]) = None.
Proof.
  apply (proj1 (proj2 (handleParsed_adds_all parsedRound [beer]))). discriminate.
Defined.

(** ** The chart *)

Ltac by5 n :=
  pose proof (Nat.div_mod_eq n 5);
  pose proof (Nat.mod_upper_bound n 5 ltac:(lia)).

(** Keeping the indices divisible by 5: when the numbering starts [o < 5]
    places before a multiple of 5, the [k]-th element kept is the element
    [o + 5 * k] of the list. *)
Lemma everyFifth_nth {A : Type} (l : list A) : forall i o k,
  (o < 5)%nat -> ((i + o) mod 5 = 0)%nat ->
  nth_error (filterByIndex (fun j => (j mod 5 =? 0)%nat) i l) k
  = nth_error l (o + 5 * k).
Proof.
  induction l as [| x xs IH]; intros i o k Ho Hio.
  - cbn [filterByIndex]. now rewrite !nth_error_nil.
  - cbn [filterByIndex]. destruct (Nat.eqb_spec (i mod 5) 0) as [E | E].
    + assert (o = 0)%nat by (by5 i; by5 (i + o)%nat; lia). subst o.
      destruct k as [| k]; [reflexivity |].
      cbn [nth_error]. rewrite (IH (S i) 4%nat k); [| lia |].
      * replace (0 + 5 * S k)%nat with (S (4 + 5 * k)) by lia. reflexivity.
      * by5 i. by5 (S i + 4)%nat. lia.
    + assert (0 < o)%nat by (destruct o; [rewrite Nat.add_0_r in Hio; congruence | lia]).
      rewrite (IH (S i) (o - 1)%nat k); [| lia |].
      * replace (o + 5 * k)%nat with (S (o - 1 + 5 * k)) by lia. reflexivity.
      * replace (S i + (o - 1))%nat with (i + o)%nat by lia. exact Hio.
Qed.

Lemma sampled_nth (pts : list DataPoint) (k : nat) :
  (20 < List.length pts)%nat ->
  nth_error (sampledPoints pts) k = nth_error pts (5 * k).
Proof.
  intro H. unfold sampledPoints.
  apply Nat.ltb_lt in H. rewrite H.
  now rewrite (everyFifth_nth pts 0 0 k) by (reflexivity || lia).
Qed.

Lemma sampled_length (pts : list DataPoint) :
  (20 < List.length pts)%nat ->
  List.length (sampledPoints pts) = ((List.length pts + 4) / 5)%nat.
Proof.
  intro H.
  set (m := List.length (sampledPoints pts)).
  assert (Hhi : (List.length pts <= 5 * m)%nat).
  { apply nth_error_None. rewrite <- sampled_nth by exact H.
    apply nth_error_None. subst m. lia. }
  assert (Hlo : (0 < m -> 5 * (m - 1) < List.length pts)%nat).
  { intro Hm. apply nth_error_Some. rewrite <- sampled_nth by exact H.
    apply nth_error_Some. subst m. lia. }
  by5 (List.length pts + 4)%nat. lia.
Qed.

(** Up to 20 samples are all charted.  From 21 samples on the chart shows
    every fifth one, starting with the first: [ceil(n / 5)] of them, the
    [k]-th being sample [5 * k].  Each charted value is the sample's BAC
    capped at 0.2, and the 0.05 reference line has one entry per charted
    sample. *)
Theorem chart_sampling (pts : list DataPoint) :
  ((List.length pts <= 20)%nat -> sampledPoints pts = pts) /\
  ((20 < List.length pts)%nat ->
   List.length (sampledPoints pts) = ((List.length pts + 4) / 5)%nat /\
   forall k, nth_error (sampledPoints pts) k = nth_error pts (5 * k)) /\
  (forall k, nth_error (chartValues pts) k
             = option_map (fun p => Qmin (bac p) 0.2%Q)
                 (nth_error (sampledPoints pts) k)) /\
  Forall (fun v => (v <= 0.2)%Q) (chartValues pts) /\
  (forall p, (bac p <= 0.2)%Q -> (Qmin (bac p) 0.2 == bac p)%Q) /\
  List.length (referenceLine pts) = List.length (chartValues pts) /\
  Forall (fun v => v = 0.05%Q) (referenceLine pts).
Proof.
  split; [| split; [| split; [| split; [| split; [| split]]]]].
  - intro H. unfold sampledPoints.
    assert (E : (20 <? List.length pts)%nat = false) by (apply Nat.ltb_ge; lia).
    now rewrite E.
  - intro H. split; [now apply sampled_length |].
    intro k. now apply sampled_nth.
  - intro k. unfold chartValues. apply nth_error_map.
  - unfold chartValues. apply Forall_forall. intros v Hv.
    apply in_map_iff in Hv. destruct Hv as (p & <- & _). apply Q.le_min_r.
  - intros p Hp. now apply Q.min_l.
  - unfold referenceLine, chartValues. now rewrite repeat_length, length_map.
  - unfold referenceLine. apply Forall_forall. intros v Hv.
    now apply repeat_spec in Hv.
Qed.

Lemma chart_sampling_witness : sampledPoints crossingSeries = crossingSeries.
Proof.
  apply (proj1 (chart_sampling crossingSeries)). simpl. lia.
Defined.

(** For every non-empty list of drinks the chart has between 2 and 58
    samples, and its first sample is the first sample of the series, the
    session start. *)
Theorem chart_of_simulation (toLocaleTimeString : Z -> string)
    (firstHourBurn subsequentHourBurn weight : Q) (gender : Gender)
    (drinks : list Drink) :
  drinks <> [] ->
  exists pts batches p0,
    (forall fuel, (288 <= fuel)%nat ->
       simulate toLocaleTimeString firstHourBurn subsequentHourBurn weight gender
         fuel drinks = Some (pts, batches)) /\
    (2 <= List.length (sampledPoints pts) <= 58)%nat /\
    nth_error pts 0 = Some p0 /\
    nth_error (sampledPoints pts) 0 = Some p0 /\
    time p0 = firstDrinkTime drinks.
Proof.
  intro Hne.
  destruct (simulate_result toLocaleTimeString firstHourBurn subsequentHourBurn
              weight gender drinks Hne)
    as (n & newPts & Hrun & Hn & Hlen & _).
  eexists _, _, _. split; [exact Hrun |].
  set (pts := _ :: newPts).
  assert (Hl : List.length pts = S n) by (subst pts; cbn [List.length]; lia).
  assert (Hs := chart_sampling pts). destruct Hs as (Hsmall & Hbig & _).
  destruct (Nat.le_gt_cases (List.length pts) 20) as [Hc | Hc].
  - rewrite (Hsmall Hc). split; [lia |]. subst pts. repeat split.
  - destruct (Hbig Hc) as (Hslen & Hnth). rewrite Hslen, Hnth.
    split; [| subst pts; repeat split].
    by5 (List.length pts + 4)%nat. lia.
Qed.

Lemma chart_of_simulation_witness :
  exists pts batches p0,
    (forall fuel, (288 <= fuel)%nat ->
       simulate noLabel 2 1 80 male fuel [beer] = Some (pts, batches)) /\
    (2 <= List.length (sampledPoints pts) <= 58)%nat /\
    nth_error pts 0 = Some p0 /\
    nth_error (sampledPoints pts) 0 = Some p0 /\
    time p0 = firstDrinkTime [beer].
Proof.
  apply (chart_of_simulation noLabel 2 1 80 male [beer]). discriminate.
Defined.

(** ** The analytics on any series *)

Lemma bacAt_nth (pts : list DataPoint) (j : nat) (p : DataPoint) :
  nth_error pts j = Some p -> bacAt pts j = bac p.
Proof. intro H. unfold bacAt. now rewrite H. Qed.

(** On every non-empty series, of one sample or more, [soberTimeInfo] has a
    result.  Its status is [under] exactly when every sample is below 0.05,
    and then it carries no time; it is [over] exactly when some sample
    reaches 0.05, and then the time and label it carries are those of a
    sample at or after the peak: one at or below 0.05 when the result is not
    projected, and the last sample, still above 0.05, when it is. *)
Theorem soberTimeInfo_status (pts : list DataPoint) :
  pts <> [] ->
  exists info,
    soberTimeInfo pts = Some info /\
    (SoberInfo.status info = SoberInfo.under <->
     forall p, In p pts -> (bac p < 0.05)%Q) /\
    (SoberInfo.status info = SoberInfo.over <->
     exists p, In p pts /\ (0.05 <= bac p)%Q) /\
    (SoberInfo.status info = SoberInfo.under ->
     SoberInfo.time info = None /\ SoberInfo.isProjected info = false) /\
    (SoberInfo.status info = SoberInfo.over ->
     exists j q,
       (peakIndexOf pts <= j)%nat /\ nth_error pts j = Some q /\
       SoberInfo.time info = Some (time q) /\
       SoberInfo.label info = Some (label q) /\
       (SoberInfo.isProjected info = false -> (bac q <= 0.05)%Q) /\
       (SoberInfo.isProjected info = true ->
        S j = List.length pts /\ (0.05 < bac q)%Q)).
Proof.
  intro Hne.
  destruct pts as [| p0 rest] eqn:Epts; [congruence |]. rewrite <- Epts in *.
  assert (Hlen : (1 <= List.length pts)%nat) by (rewrite Epts; cbn; lia).
  destruct (peakIndexOf_spec pts Hlen) as (Hk & Hmax & _).
  set (k := peakIndexOf pts) in *.
  destruct (nth_error pts k) as [pk |] eqn:Ek;
    [| apply nth_error_None in Ek; lia].
  assert (Hpk : bacAt pts k = bac pk) by now apply bacAt_nth.
  assert (Hall : forall p, In p pts -> (bac p <= bac pk)%Q).
  { intros p Hp. apply In_nth_error in Hp. destruct Hp as (j & Hj).
    rewrite <- Hpk, <- (bacAt_nth pts j p Hj). apply Hmax.
    apply nth_error_Some. congruence. }
  rewrite (soberTimeInfo_nonempty pts p0 rest Epts). cbv zeta. fold k.
  rewrite Hpk.
  destruct (Qlt_bool (bac pk) 0.05) eqn:Elow.
  - apply Qlt_bool_iff in Elow. eexists. split; [reflexivity |].
    cbn [SoberInfo.status SoberInfo.time SoberInfo.isProjected SoberInfo.projected].
    split; [split; [intros _ p Hp; specialize (Hall p Hp); lra | reflexivity] |].
    split; [split; [discriminate | intros (p & Hp & Hge);
                                    specialize (Hall p Hp); lra] |].
    split; [auto | discriminate].
  - apply Qlt_bool_false in Elow.
    assert (Hover : exists p, In p pts /\ (0.05 <= bac p)%Q)
      by (exists pk; split; [now apply (nth_error_In pts k) | exact Elow]).
    assert (Hnot : ~ forall p, In p pts -> (bac p < 0.05)%Q).
    { intro H. specialize (H pk (nth_error_In pts k Ek)). lra. }
    destruct (firstAtOrBelowLimit pts k) as [q |] eqn:Efind;
      (eexists; split; [reflexivity |]);
      cbn [SoberInfo.status SoberInfo.time SoberInfo.label
           SoberInfo.isProjected SoberInfo.projected];
      (split; [split; [discriminate | intro H; contradiction] |]);
      (split; [split; [intros _; exact Hover | reflexivity] |]);
      (split; [discriminate | intros _]).
    + unfold firstAtOrBelowLimit in Efind. apply find_some in Efind.
      destruct Efind as [Hin Hle]. apply Qle_bool_iff in Hle.
      apply In_nth_error in Hin. destruct Hin as (i & Hi).
      rewrite nth_error_skipn in Hi.
      exists (k + i)%nat, q.
      repeat split; try reflexivity; try lia; try exact Hi; try discriminate.
      intros _. exact Hle.
    + exists (List.length pts - 1)%nat, (last pts p0).
      assert (Hlast : nth_error pts (List.length pts - 1) = Some (last pts p0))
        by (apply last_nth_error; congruence).
      split; [lia |]. split; [exact Hlast |].
      split; [reflexivity |]. split; [reflexivity |].
      split; [discriminate | intros _]. split; [lia |].
      apply Qle_bool_false.
      apply (find_none _ _ Efind).
      apply (nth_error_In _ (List.length pts - 1 - k)).
      rewrite nth_error_skipn.
      now replace (k + (List.length pts - 1 - k))%nat
        with (List.length pts - 1)%nat by lia.
Qed.

Lemma soberTimeInfo_status_witness :
  exists info,
    soberTimeInfo crossingSeries = Some info /\
    (SoberInfo.status info = SoberInfo.under <->
     forall p, In p crossingSeries -> (bac p < 0.05)%Q) /\
    (SoberInfo.status info = SoberInfo.over <->
     exists p, In p crossingSeries /\ (0.05 <= bac p)%Q) /\
    (SoberInfo.status info = SoberInfo.under ->
     SoberInfo.time info = None /\ SoberInfo.isProjected info = false) /\
    (SoberInfo.status info = SoberInfo.over ->
     exists j q,
       (peakIndexOf crossingSeries <= j)%nat /\
       nth_error crossingSeries j = Some q /\
       SoberInfo.time info = Some (time q) /\
       SoberInfo.label info = Some (label q) /\
       (SoberInfo.isProjected info = false -> (bac q <= 0.05)%Q) /\
       (SoberInfo.isProjected info = true ->
        S j = List.length crossingSeries /\ (0.05 < bac q)%Q)).
Proof.
  apply (soberTimeInfo_status crossingSeries). discriminate.
Defined.

(** ** Early stop and decay *)

Lemma filter_all_false {A : Type} (f : A -> bool) (l : list A) :
  (forall x, In x l -> f x = false) -> filter f l = [].
Proof.
  induction l as [| x l IH]; intro H; [reflexivity |].
  cbn [filter]. rewrite (H x (or_introl eq_refl)). apply IH.
  intros y Hy. apply H. now right.
Qed.

Lemma nth_error_snoc_last {A : Type} (l : list A) (x : A) :
  nth_error (l ++ [x]) (List.length l) = Some x.
Proof.
  rewrite nth_error_app2 by lia. now rewrite Nat.sub_diag.
Qed.

Lemma decaysAfter_snoc (T : Z) (pre : list DataPoint) (pl q : DataPoint) :
  decaysAfter T (pre ++ [pl]) ->
  (T <= time pl -> (bac q <= bac pl)%Q) ->
  decaysAfter T ((pre ++ [pl]) ++ [q]).
Proof.
  intros Hold Hnew i p p' Hp Hp' HT.
  assert (Hlen : List.length (pre ++ [pl]) = S (List.length pre))
    by (rewrite length_app; cbn; lia).
  destruct (Nat.lt_trichotomy i (List.length pre)) as [Hi | [Hi | Hi]].
  - rewrite nth_error_app1 in Hp, Hp' by lia. now apply (Hold i p p').
  - subst i. rewrite nth_error_app1 in Hp by lia.
    rewrite nth_error_snoc_last in Hp. injection Hp as <-.
    rewrite <- Hlen, nth_error_snoc_last in Hp'. injection Hp' as <-.
    now apply Hnew.
  - assert (H : nth_error ((pre ++ [pl]) ++ [q]) (S i) = None).
    { apply nth_error_None. rewrite length_app, Hlen. cbn. lia. }
    congruence.
Qed.

Section LoopDecay.

Variable toLocaleTimeString : Z -> string.
Variables firstHourBurn subsequentHourBurn weight : Q.
Variable gender : Gender.
Variable sortedDrinks : list Drink.
Variable lastDrinkTime : Z.

Local Abbreviation BAC := (toBAC weight gender).
Local Abbreviation body :=
  (loopBody toLocaleTimeString firstHourBurn subsequentHourBurn weight gender
     sortedDrinks lastDrinkTime).
Local Abbreviation loop :=
  (whileLoop toLocaleTimeString firstHourBurn subsequentHourBurn weight gender
     sortedDrinks lastDrinkTime).

Lemma toBAC_monotone (a b : Q) : (a <= b)%Q -> (BAC a <= BAC b)%Q.
Proof.
  intro H. unfold toBAC, Qdiv.
  apply Qmult_le_compat_r; [exact H |].
  apply Qinv_le_0_compat, Qlt_le_weak, divisor_pos.
Qed.

(** The loop stops before its step budget only through [break]: the last
    sample is then at most 0.001 and lies more than a step after the last
    drink. *)
Lemma whileLoop_early_stop (fuel : nat) : forall st st' batches,
  loop fuel st = Some (st', batches) ->
  Z.of_nat (List.length batches) < maxSteps - steps st ->
  exists pre p,
    dataPoints st' = pre ++ [p] /\ (bac p <= 0.001)%Q /\
    lastDrinkTime + stepMs < time p.
Proof.
  induction fuel as [| fuel IH]; intros st st' batches Hrun Hshort;
    destruct (steps st <? maxSteps) eqn:E;
    try (rewrite whileLoop_done in Hrun by exact E;
         injection Hrun as <- <-; apply Z.ltb_ge in E; cbn in Hshort; lia).
  - simpl in Hrun. rewrite E in Hrun. discriminate.
  - rewrite whileLoop_step in Hrun by exact E.
    destruct (loopBody_spec toLocaleTimeString firstHourBurn subsequentHourBurn
                weight gender sortedDrinks lastDrinkTime st)
      as (net2 & _ & [(Hb & Hlast & Hsober) | Hb]); rewrite Hb in Hrun.
    + injection Hrun as <- <-. cbn [dataPoints].
      eexists _, _. split; [reflexivity |]. cbn [bac time].
      split; [exact Hsober | lia].
    + match type of Hrun with
      | context [loop fuel ?s] =>
          destruct (loop fuel s) as [[st'' bs] |] eqn:R; [| discriminate]
      end.
      injection Hrun as <- <-.
      apply (IH _ _ _ R). cbn [steps]. cbn [List.length] in Hshort. lia.
Qed.

Hypothesis firstHourBurn_nonneg : (0 <= firstHourBurn)%Q.
Hypothesis subsequentHourBurn_nonneg : (0 <= subsequentHourBurn)%Q.
Hypothesis lastDrinkTime_last :
  forall d, In d sortedDrinks -> timestamp d <= lastDrinkTime.

(** Once [currentTime] has reached the last drink, a body absorbs nothing
    and does not raise the net. *)
Lemma loopBody_trace (st : SimState) :
  exists q,
    dataPoints (fst (fst (body st))) = dataPoints st ++ [q] /\
    time q = currentTime st + stepMs /\
    bac q = BAC (currentNetSD (fst (fst (body st)))) /\
    (snd (fst (body st)) = false ->
     currentTime (fst (fst (body st))) = currentTime st + stepMs) /\
    (lastDrinkTime <= currentTime st ->
     (currentNetSD (fst (fst (body st))) <= currentNetSD st)%Q).
Proof.
  unfold loopBody.
  set (batch := drinksInInterval sortedDrinks (currentTime st)
                  (currentTime st + stepMs)).
  set (burnAmount := if timeSinceStart st <? 60 * 60 * 1000
                     then stepBurnFirstHour firstHourBurn
                     else stepBurnSubsequent subsequentHourBurn).
  set (net1 := absorb (currentNetSD st) batch).
  set (net2 := if Qlt_bool 0 net1
               then (let n := (net1 - burnAmount)%Q in
                     if Qlt_bool n 0 then 0%Q else n)
               else net1).
  assert (Hburn : (0 <= burnAmount)%Q).
  { subst burnAmount. unfold stepBurnFirstHour, stepBurnSubsequent.
    change (inject_Z stepsInMinutes) with 10%Q.
    assert (H : forall x, (0 <= x)%Q -> (0 <= x / 60 * 10)%Q).
    { intros x Hx. apply Qmult_le_0_compat; [| discriminate].
      apply Qle_shift_div_l; [reflexivity | lra]. }
    destruct (timeSinceStart st <? 60 * 60 * 1000); now apply H. }
  assert (Hnet : lastDrinkTime <= currentTime st -> (net2 <= currentNetSD st)%Q).
  { intro Hpast.
    assert (Eb : batch = []).
    { apply filter_all_false. intros d Hd.
      apply andb_false_iff. left. apply Z.ltb_ge.
      specialize (lastDrinkTime_last d Hd). lia. }
    assert (E1 : net1 = currentNetSD st) by (subst net1; now rewrite Eb).
    subst net2. rewrite E1. cbv zeta.
    destruct (Qlt_bool 0 (currentNetSD st)) eqn:Epos; [| lra].
    apply Qlt_bool_iff in Epos.
    destruct (Qlt_bool (currentNetSD st - burnAmount) 0); lra. }
  eexists.
  destruct ((lastDrinkTime <? currentTime st) && Qle_bool (BAC net2) 0.001);
    cbn [fst snd dataPoints currentTime currentNetSD];
    (split; [reflexivity |]); cbn [time bac];
    (split; [reflexivity |]); (split; [reflexivity |]);
    (split; [| exact Hnet]); [discriminate | reflexivity].
Qed.

(** Invariant of the loop: the last sample is the sample of [currentTime] and
    of the current net, and the samples so far decay after the last drink. *)
Lemma whileLoop_decay (fuel : nat) : forall st st' batches,
  loop fuel st = Some (st', batches) ->
  (exists pre pl,
     dataPoints st = pre ++ [pl] /\ time pl = currentTime st /\
     bac pl = BAC (currentNetSD st)) ->
  decaysAfter lastDrinkTime (dataPoints st) ->
  decaysAfter lastDrinkTime (dataPoints st').
Proof.
  induction fuel as [| fuel IH]; intros st st' batches Hrun Hshape Hdec;
    destruct (steps st <? maxSteps) eqn:E;
    try (rewrite whileLoop_done in Hrun by exact E;
         injection Hrun as <- <-; exact Hdec).
  - simpl in Hrun. rewrite E in Hrun. discriminate.
  - rewrite whileLoop_step in Hrun by exact E.
    destruct (loopBody_trace st) as (q & Hpts & Htime & Hbac & Hnext & Hnet).
    destruct Hshape as (pre & pl & Epts & Etime & Ebac).
    assert (Hdec1 : decaysAfter lastDrinkTime (dataPoints (fst (fst (body st))))).
    { rewrite Hpts, Epts. apply decaysAfter_snoc; [now rewrite <- Epts |].
      intro HT. rewrite Hbac, Ebac. apply toBAC_monotone, Hnet. lia. }
    destruct (body st) as [[st1 brk] batch]. cbn [fst snd] in *.
    destruct brk.
    + injection Hrun as <- <-. exact Hdec1.
    + destruct (loop fuel st1) as [[st'' bs] |] eqn:R; [| discriminate].
      injection Hrun as <- <-.
      apply (IH _ _ _ R); [| exact Hdec1].
      exists (dataPoints st), q. rewrite (Hnext eq_refl). auto.
Qed.

End LoopDecay.

(** A series that ends before the 289th sample ended through the early
    stop: its last sample has a BAC of at most 0.001 and lies more than one
    step after every drink. *)
Theorem simulation_stops_sober (toLocaleTimeString : Z -> string)
    (firstHourBurn subsequentHourBurn weight : Q) (gender : Gender)
    (drinks : list Drink) :
  drinks <> [] ->
  exists pts batches,
    (forall fuel, (288 <= fuel)%nat ->
       simulate toLocaleTimeString firstHourBurn subsequentHourBurn weight gender
         fuel drinks = Some (pts, batches)) /\
    ((List.length pts < 289)%nat ->
     exists pre p,
       pts = pre ++ [p] /\ (bac p <= 0.001)%Q /\
       forall d, In d drinks -> timestamp d + stepMs < time p).
Proof.
  intro Hne.
  destruct (simulate_loop toLocaleTimeString firstHourBurn subsequentHourBurn
              weight gender drinks Hne)
    as (lastDrink & st' & bs & Hin & Hmax & Hloop & _ & Hsim).
  destruct (simulate_result toLocaleTimeString firstHourBurn subsequentHourBurn
              weight gender drinks Hne)
    as (n & newPts & Hrun & _ & Hlen & _).
  specialize (Hrun 288%nat (le_n _)). rewrite (Hsim 288%nat (le_n _)) in Hrun.
  injection Hrun as Hpts Hbs.
  eexists _, _. split; [exact Hsim |].
  intro Hshort.
  destruct (whileLoop_early_stop _ _ _ _ _ _ _ _ _ _ _ Hloop)
    as (pre & p & Epts & Hsober & Hlate).
  - cbn [steps]. rewrite Hbs, batchesFrom_length.
    rewrite Hpts in Hshort. cbn [List.length] in Hshort. constants. lia.
  - exists pre, p. split; [exact Epts |]. split; [exact Hsober |].
    intros d Hd. apply sortDrinks_In in Hd. specialize (Hmax d Hd). lia.
Qed.

Lemma simulation_stops_sober_witness :
  exists pts batches,
    (forall fuel, (288 <= fuel)%nat ->
       simulate noLabel 2 1 80 male fuel [beer] = Some (pts, batches)) /\
    ((List.length pts < 289)%nat ->
     exists pre p,
       pts = pre ++ [p] /\ (bac p <= 0.001)%Q /\
       forall d, In d [beer] -> timestamp d + stepMs < time p).
Proof.
  apply (simulation_stops_sober noLabel 2 1 80 male [beer]). discriminate.
Defined.

(** With non-negative burn rates the BAC does not rise after the last
    drink: of two consecutive samples, the first of which is at or after
    every drink, the second is not above the first. *)
Theorem bac_decays_after_last_drink (toLocaleTimeString : Z -> string)
    (firstHourBurn subsequentHourBurn weight : Q) (gender : Gender)
    (drinks : list Drink) :
  (0 <= firstHourBurn)%Q -> (0 <= subsequentHourBurn)%Q -> drinks <> [] ->
  exists pts batches,
    (forall fuel, (288 <= fuel)%nat ->
       simulate toLocaleTimeString firstHourBurn subsequentHourBurn weight gender
         fuel drinks = Some (pts, batches)) /\
    forall i p q,
      nth_error pts i = Some p -> nth_error pts (S i) = Some q ->
      (forall d, In d drinks -> timestamp d <= time p) ->
      (bac q <= bac p)%Q.
Proof.
  intros Hb1 Hb2 Hne.
  destruct (simulate_loop toLocaleTimeString firstHourBurn subsequentHourBurn
              weight gender drinks Hne)
    as (lastDrink & st' & bs & Hin & Hmax & Hloop & _ & Hsim).
  eexists _, _. split; [exact Hsim |].
  intros i p q Hp Hq Hafter.
  assert (Hdec : decaysAfter (timestamp lastDrink) (dataPoints st')).
  { apply (whileLoop_decay _ _ _ _ _ _ _ Hb1 Hb2 Hmax _ _ _ _ Hloop).
    - eexists [], _. cbn [app dataPoints currentTime currentNetSD time bac].
      repeat split.
    - intros j a b Ha Hb. cbn [dataPoints] in Hb.
      destruct j; discriminate. }
  apply (Hdec i p q Hp Hq). now apply Hafter.
Qed.

Lemma bac_decays_after_last_drink_witness :
  exists pts batches,
    (forall fuel, (288 <= fuel)%nat ->
       simulate noLabel 2 1 80 male fuel eveningDrinks = Some (pts, batches)) /\
    forall i p q,
      nth_error pts i = Some p -> nth_error pts (S i) = Some q ->
      (forall d, In d eveningDrinks -> timestamp d <= time p) ->
      (bac q <= bac p)%Q.
Proof.
  apply (bac_decays_after_last_drink noLabel 2 1 80 male eveningDrinks);
    discriminate.
Defined.

(** ** Drinks close to the session start *)

Lemma filter_all_true {A : Type} (f : A -> bool) (l : list A) :
  (forall x, In x l -> f x = true) -> filter f l = l.
Proof.
  induction l as [| x l IH]; intro H; [reflexivity |].
  cbn [filter]. rewrite (H x (or_introl eq_refl)). f_equal. apply IH.
  intros y Hy. apply H. now right.
Qed.

Lemma total_perm (l l' : list Drink) :
  Permutation l l' -> (totalStdDrinks l == totalStdDrinks l')%Q.
Proof.
  induction 1 as [| x l l' _ IH | x y l | l l' l'' _ IH1 _ IH2].
  - reflexivity.
  - rewrite !total_cons, IH. reflexivity.
  - rewrite !total_cons. lra.
  - now rewrite IH1.
Qed.

(** When every drink of the list is less than a second after the earliest
    one (a round entered in one go), the first sample shows them all: its
    BAC is the header total divided by [w * r], [w] being the weight the
    graph uses. *)
Theorem first_point_of_a_round (toLocaleTimeString : Z -> string)
    (firstHourBurn subsequentHourBurn weight : Q) (gender : Gender)
    (drinks : list Drink) :
  drinks <> [] ->
  (forall d, In d drinks -> timestamp d < firstDrinkTime drinks + 1000) ->
  exists p0 rest batches,
    (forall fuel, (288 <= fuel)%nat ->
       simulate toLocaleTimeString firstHourBurn subsequentHourBurn weight gender
         fuel drinks = Some (p0 :: rest, batches)) /\
    time p0 = firstDrinkTime drinks /\
    (bac p0 == totalStdDrinks drinks / (effectiveWeight weight * r gender))%Q.
Proof.
  intros Hne Hclose.
  destruct (simulate_result toLocaleTimeString firstHourBurn subsequentHourBurn
              weight gender drinks Hne) as (n & newPts & Hrun & _).
  eexists _, _, _. split; [exact Hrun |]. cbn [time bac].
  split; [reflexivity |].
  assert (E : initialDrinks (sortDrinks drinks) (firstDrinkTime drinks)
              = sortDrinks drinks).
  { apply filter_all_true. intros d Hd.
    apply (proj1 (sortDrinks_In drinks d)) in Hd.
    apply Z.ltb_lt.
    assert (H1 := firstDrinkTime_least drinks d Hd).
    assert (H2 := Hclose d Hd). lia. }
  rewrite E. unfold toBAC.
  change (absorb 0 (sortDrinks drinks)) with (totalStdDrinks (sortDrinks drinks)).
  now rewrite (total_perm _ _ (sortDrinks_perm drinks)).
Qed.

Lemma first_point_of_a_round_witness :
  exists p0 rest batches,
    (forall fuel, (288 <= fuel)%nat ->
       simulate noLabel 2 1 80 male fuel closeDrinks = Some (p0 :: rest, batches)) /\
    time p0 = firstDrinkTime closeDrinks /\
    (bac p0 == totalStdDrinks closeDrinks / (effectiveWeight 80 * r male))%Q.
Proof.
  apply (first_point_of_a_round noLabel 2 1 80 male closeDrinks).
  - discriminate.
  - intros d [<- | [<- | []]]; vm_compute; reflexivity.
Defined.
